(** * Out-of-band template diagnostics: the recorder of [oob.ts]

    A shallow embedding of
    [packages/compiler-cli/src/ngtsc/typecheck/src/oob.ts]: the class
    [OutOfBandDiagnosticRecorderImpl], its six reporting methods and the
    helper [makeInlineDiagnostic].

    A method of the class is a computation over the receiver [this]: it
    may read the resolver held by the receiver, push on the receiver's
    private array, and complete normally or by a [throw].  A thrown
    exception leaves the receiver as it was at the point of the throw.
    Each run also yields the list of resolver operations it performed, in
    order, so that statements such as "no resolver operation is performed"
    can be written down. *)

From Stdlib Require Import List String Ascii NArith Bool Arith Lia.
Import ListNotations.
Open Scope list_scope.

(* ===================================================================== *)
(** ** JavaScript strings *)
(* ===================================================================== *)

(** A JavaScript string is a finite sequence of UTF-16 code units. *)
Definition code_unit := N.
Definition js_string := list code_unit.

(** A string literal of the source; every literal of [oob.ts] is ASCII. *)
Definition lit (s : string) : js_string :=
  map N_of_ascii (list_ascii_of_string s).

(** The code units [String.prototype.trim] strips (ECMAScript [WhiteSpace]
    and [LineTerminator]): TAB, LF, VT, FF, CR, SP, NBSP, U+1680,
    U+2000..U+200A, U+2028, U+2029, U+202F, U+205F, U+3000 and U+FEFF.
    All of them are single code units. *)
Definition isWhiteSpace (c : code_unit) : bool :=
  ((9 <=? c) && (c <=? 13) || (c =? 32) || (c =? 160) || (c =? 5760)
   || (8192 <=? c) && (c <=? 8202) || (c =? 8232) || (c =? 8233)
   || (c =? 8239) || (c =? 8287) || (c =? 12288) || (c =? 65279))%N.

Fixpoint trimStart (s : js_string) : js_string :=
  match s with
  | [] => []
  | c :: rest => if isWhiteSpace c then trimStart rest else s
  end.

Definition trimEnd (s : js_string) : js_string := rev (trimStart (rev s)).

(** [String.prototype.trim]. *)
Definition trim (s : js_string) : js_string := trimEnd (trimStart s).

(** [a || b] where [a] is an object or [undefined]: objects are truthy. *)
Definition or_else {A : Type} (a : option A) (b : A) : A :=
  match a with
  | Some x => x
  | None => b
  end.

(* ===================================================================== *)
(** ** The imported data model *)
(* ===================================================================== *)

(** The part of the TypeScript API the file touches. *)
Module ts.

(** A source file, identified by its name. *)
Definition SourceFile := js_string.

(** An AST node of the host program: where it is declared. *)
Record Node := mkNode {
  sourceFile : SourceFile;
  pos : N;
  width : N
}.

Definition getSourceFile (n : Node) : SourceFile := sourceFile n.

Module DiagnosticCategory.
Inductive t := Warning | Error | Suggestion | Message.
End DiagnosticCategory.

End ts.

(** [ClassDeclaration] of [../../reflection]: a class with its name
    identifier, which is the declaration location diagnostics point at. *)
Module ClassDeclaration.
Record t := mk { name : ts.Node }.
End ClassDeclaration.

(** Spans of [@angular/compiler].  A [ParseSourceSpan] is a span of a
    parsed template; an [AbsoluteSourceSpan] holds offsets of an
    expression AST node, which the resolver must translate. *)
Record ParseSourceSpan := mkParseSourceSpan {
  parse_start : N;
  parse_end : N
}.

Record AbsoluteSourceSpan := mkAbsoluteSourceSpan {
  abs_start : N;
  abs_end : N
}.

Module TmplAstReference.
Record t := mk {
  name : js_string;
  value : js_string;
  sourceSpan : ParseSourceSpan;
  valueSpan : option ParseSourceSpan
}.
End TmplAstReference.

Module TmplAstVariable.
Record t := mk {
  name : js_string;
  value : js_string;
  sourceSpan : ParseSourceSpan;
  valueSpan : option ParseSourceSpan
}.
End TmplAstVariable.

Module BindingPipe.
Record t := mk {
  name : js_string;
  nameSpan : AbsoluteSourceSpan;
  sourceSpan : AbsoluteSourceSpan
}.
End BindingPipe.

Module PropertyWrite.
Record t := mk {
  name : js_string;
  sourceSpan : AbsoluteSourceSpan
}.
End PropertyWrite.

(** [TemplateId] of [../api]: an opaque identifier of a template. *)
Definition TemplateId := js_string.

(** [TemplateSourceMapping] of [../api]: the per-template context the
    resolver hands out; it knows the file of the component and whether the
    template is an external file. *)
Record TemplateSourceMapping := mkMapping {
  mappingComponentFile : ts.SourceFile;
  mappingTemplateUrl : option js_string
}.

(** The members of [ErrorCode] that [oob.ts] names. *)
Module ErrorCode.
Inductive t :=
| MISSING_REFERENCE_TARGET
| MISSING_PIPE
| WRITE_TO_READ_ONLY_VARIABLE
| DUPLICATE_VARIABLE_DECLARATION
| INLINE_TCB_REQUIRED
| INLINE_TYPE_CTOR_REQUIRED.
End ErrorCode.

(** Modelled from the spec: [ngErrorCode] of [../../diagnostics], which is
    not part of the sources at hand.  The spec speaks of "a stable error
    code"; the numeric encoding is left symbolic. *)
Inductive DiagnosticCode := ngErrorCode (code : ErrorCode.t).

(** Where a diagnostic or an annotation points: a span of a template,
    read through the template's source mapping, or a declaration of the
    host program. *)
Inductive Location :=
| InTemplate (mapping : TemplateSourceMapping) (span : ParseSourceSpan)
| AtNode (node : ts.Node).

(** A secondary annotation ([ts.DiagnosticRelatedInformation]). *)
Record RelatedInformation := mkRelated {
  relatedText : js_string;
  relatedLocation : Location
}.

(** [ts.Diagnostic] with the fields the spec lists for a diagnostic
    record: category, code, primary anchor, message, annotations. *)
Module Diagnostic.
Record t := mk {
  category : ts.DiagnosticCategory.t;
  code : DiagnosticCode;
  anchor : Location;
  messageText : js_string;
  relatedInformation : list RelatedInformation
}.
End Diagnostic.

(** [TemplateDiagnostic] of [../diagnostics]: a [ts.Diagnostic] extended
    with [componentFile] and [templateId]. *)
Module TemplateDiagnostic.
Record t := mk {
  base : Diagnostic.t;
  componentFile : ts.SourceFile;
  templateId : TemplateId
}.
Definition category (d : t) := Diagnostic.category (base d).
Definition code (d : t) := Diagnostic.code (base d).
Definition anchor (d : t) := Diagnostic.anchor (base d).
Definition messageText (d : t) := Diagnostic.messageText (base d).
Definition relatedInformation (d : t) :=
  Diagnostic.relatedInformation (base d).
End TemplateDiagnostic.

(** The optional last argument of [makeTemplateDiagnostic]. *)
Record RelatedMessage := mkRelatedMessage {
  text : js_string;
  span : ParseSourceSpan
}.

(** Modelled from the spec: [makeRelatedInformation] of
    [../../diagnostics] is not part of the sources at hand.  Per the spec
    an annotation is a (message, location) pair; here the location is the
    node passed in. *)
Definition makeRelatedInformation (node : ts.Node) (messageText : js_string)
  : RelatedInformation :=
  {| relatedText := messageText; relatedLocation := AtNode node |}.

(** Modelled from the spec: [makeDiagnostic] of [../../diagnostics] is not
    part of the sources at hand.  Per the spec the record is an error
    (the only category of this subsystem) with the stable code, anchored
    at the declaration passed in, with the message and the annotations
    given (none when the optional argument is left out). *)
Definition makeDiagnostic (code : ErrorCode.t) (node : ts.Node)
    (messageText : js_string)
    (relatedInformation : option (list RelatedInformation))
  : Diagnostic.t :=
  {| Diagnostic.category := ts.DiagnosticCategory.Error;
     Diagnostic.code := ngErrorCode code;
     Diagnostic.anchor := AtNode node;
     Diagnostic.messageText := messageText;
     Diagnostic.relatedInformation := or_else relatedInformation [] |}.

(** The annotation a related message becomes: its text, at its span of
    the same template. *)
Definition relatedOfMessage (mapping : TemplateSourceMapping)
    (relatedMessage : option RelatedMessage) : list RelatedInformation :=
  match relatedMessage with
  | Some rm =>
      [ {| relatedText := text rm;
           relatedLocation := InTemplate mapping (span rm) |} ]
  | None => []
  end.

(** Modelled from the spec: [makeTemplateDiagnostic] of [../diagnostics]
    is not part of the sources at hand.  Per the spec the record carries
    the template identifier, the category, the code, the primary anchor
    (the span, read through the template's mapping), the message and,
    when a related message is passed, one annotation at its span. *)
Definition makeTemplateDiagnostic (templateId : TemplateId)
    (mapping : TemplateSourceMapping) (span : ParseSourceSpan)
    (category : ts.DiagnosticCategory.t) (code : DiagnosticCode)
    (messageText : js_string) (relatedMessage : option RelatedMessage)
  : TemplateDiagnostic.t :=
  {| TemplateDiagnostic.base :=
       {| Diagnostic.category := category;
          Diagnostic.code := code;
          Diagnostic.anchor := InTemplate mapping span;
          Diagnostic.messageText := messageText;
          Diagnostic.relatedInformation :=
            relatedOfMessage mapping relatedMessage |};
     TemplateDiagnostic.componentFile := mappingComponentFile mapping;
     TemplateDiagnostic.templateId := templateId |}.

(** Modelled from the spec: the [TemplateSourceResolver] interface of
    [./diagnostics] is not part of the sources at hand.  Per the spec,
    [getSourceMapping] succeeds for every registered template identifier
    and calling it on another one is a contract violation ([None] here);
    [toParseSourceSpan] answers a span or "absent" ([null], [None]). *)
Module TemplateSourceResolver.
Record t := mk {
  getSourceMapping : TemplateId -> option TemplateSourceMapping;
  toParseSourceSpan : TemplateId -> AbsoluteSourceSpan -> option ParseSourceSpan
}.
End TemplateSourceResolver.

(* ===================================================================== *)
(** ** Computations of the recorder *)
(* ===================================================================== *)

(** What a method can throw: the [Error] it builds itself with
    [new Error(message)], or the failure of a [getSourceMapping] call made
    outside the resolver's contract, which passes through the method. *)
Inductive Thrown :=
| Error (message : js_string)
| ContractViolation (templateId : TemplateId).

Inductive Completion (A : Type) :=
| Normal (a : A)
| Throw (e : Thrown).
Arguments Normal {A} a.
Arguments Throw {A} e.

(** One resolver operation, with its arguments and its answer. *)
Inductive ResolverCall :=
| GetSourceMapping (templateId : TemplateId)
    (answer : option TemplateSourceMapping)
| ToParseSourceSpan (templateId : TemplateId) (span : AbsoluteSourceSpan)
    (answer : option ParseSourceSpan).

(** The instance state of [OutOfBandDiagnosticRecorderImpl]: the private
    array [_diagnostics] and the private constructor parameter
    [resolver]. *)
Module OutOfBandDiagnosticRecorderImpl.
Record t := mk {
  _diagnostics : list TemplateDiagnostic.t;
  resolver : TemplateSourceResolver.t
}.
End OutOfBandDiagnosticRecorderImpl.
Abbreviation Recorder := OutOfBandDiagnosticRecorderImpl.t.
Import OutOfBandDiagnosticRecorderImpl.

(** The result of running a method: how it completed, the receiver
    afterwards, and the resolver operations performed, oldest first. *)
Record Result (A : Type) := mkResult {
  outcome : Completion A;
  final : Recorder;
  calls : list ResolverCall
}.
Arguments mkResult {A} outcome final calls.
Arguments outcome {A} r.
Arguments final {A} r.
Arguments calls {A} r.

Definition M (A : Type) : Type := Recorder -> Result A.

Definition ret {A : Type} (a : A) : M A :=
  fun this => mkResult (Normal a) this [].

Definition throw {A : Type} (e : Thrown) : M A :=
  fun this => mkResult (Throw e) this [].

Definition bind {A B : Type} (m : M A) (k : A -> M B) : M B :=
  fun this =>
    let r := m this in
    match outcome r with
    | Normal a =>
        let r' := k a (final r) in
        mkResult (outcome r') (final r') (calls r ++ calls r')
    | Throw e => mkResult (Throw e) (final r) (calls r)
    end.

Declare Scope recorder_scope.
Delimit Scope recorder_scope with recorder.
Notation "x <- m ;; k" := (bind m (fun x => k))
  (at level 61, m at next level, right associativity) : recorder_scope.
Notation "m ;; k" := (bind m (fun _ => k))
  (at level 61, right associativity) : recorder_scope.
Open Scope recorder_scope.

(** [this.resolver.getSourceMapping(templateId)]. *)
Definition this_resolver_getSourceMapping (templateId : TemplateId)
  : M TemplateSourceMapping :=
  fun this =>
    let answer :=
      TemplateSourceResolver.getSourceMapping (resolver this) templateId in
    mkResult
      (match answer with
       | Some mapping => Normal mapping
       | None => Throw (ContractViolation templateId)
       end)
      this [GetSourceMapping templateId answer].

(** [this.resolver.toParseSourceSpan(templateId, span)]. *)
Definition this_resolver_toParseSourceSpan (templateId : TemplateId)
    (span : AbsoluteSourceSpan) : M (option ParseSourceSpan) :=
  fun this =>
    let answer :=
      TemplateSourceResolver.toParseSourceSpan (resolver this) templateId span in
    mkResult (Normal answer) this [ToParseSourceSpan templateId span answer].

(** [this._diagnostics.push(d)]. *)
Definition this_diagnostics_push (d : TemplateDiagnostic.t) : M unit :=
  fun this =>
    mkResult (Normal tt)
      {| _diagnostics := _diagnostics this ++ [d];
         resolver := resolver this |}
      [].

(* ===================================================================== *)
(** ** The class [OutOfBandDiagnosticRecorderImpl] *)
(* ===================================================================== *)

(** [new OutOfBandDiagnosticRecorderImpl(resolver)]. *)
Definition new (resolver : TemplateSourceResolver.t) : Recorder :=
  {| _diagnostics := []; resolver := resolver |}.

(** [get diagnostics()]. *)
Definition diagnostics (this : Recorder) : list TemplateDiagnostic.t :=
  _diagnostics this.

Definition makeInlineDiagnostic (templateId : TemplateId)
    (code : ErrorCode.t) (node : ts.Node) (messageText : js_string)
    (relatedInformation : option (list RelatedInformation))
  : TemplateDiagnostic.t :=
  {| TemplateDiagnostic.base :=
       makeDiagnostic code node messageText relatedInformation;
     TemplateDiagnostic.componentFile := ts.getSourceFile node;
     TemplateDiagnostic.templateId := templateId |}.

Definition missingReferenceTarget (templateId : TemplateId)
    (ref : TmplAstReference.t) : M unit :=
  mapping <- this_resolver_getSourceMapping templateId ;;
  let value := trim (TmplAstReference.value ref) in
  let errorMsg :=
    lit "No directive found with exportAs '" ++ value ++ lit "'." in
  this_diagnostics_push
    (makeTemplateDiagnostic templateId mapping
       (or_else (TmplAstReference.valueSpan ref)
                (TmplAstReference.sourceSpan ref))
       ts.DiagnosticCategory.Error
       (ngErrorCode ErrorCode.MISSING_REFERENCE_TARGET) errorMsg None).

Definition missingPipe (templateId : TemplateId) (ast : BindingPipe.t)
  : M unit :=
  mapping <- this_resolver_getSourceMapping templateId ;;
  let errorMsg :=
    lit "No pipe found with name '" ++ BindingPipe.name ast ++ lit "'." in
  sourceSpan <-
    this_resolver_toParseSourceSpan templateId (BindingPipe.nameSpan ast) ;;
  match sourceSpan with
  | None =>
      throw (Error
        (lit "Assertion failure: no SourceLocation found for usage of pipe '"
         ++ BindingPipe.name ast ++ lit "'."))
  | Some sourceSpan =>
      this_diagnostics_push
        (makeTemplateDiagnostic templateId mapping sourceSpan
           ts.DiagnosticCategory.Error
           (ngErrorCode ErrorCode.MISSING_PIPE) errorMsg None)
  end.

Definition illegalAssignmentToTemplateVar (templateId : TemplateId)
    (assignment : PropertyWrite.t) (target : TmplAstVariable.t) : M unit :=
  mapping <- this_resolver_getSourceMapping templateId ;;
  let errorMsg :=
    lit "Cannot use variable '" ++ PropertyWrite.name assignment
    ++ lit "' as the left-hand side of an assignment expression. Template variables are read-only." in
  sourceSpan <-
    this_resolver_toParseSourceSpan templateId
      (PropertyWrite.sourceSpan assignment) ;;
  match sourceSpan with
  | None =>
      throw (Error
        (lit "Assertion failure: no SourceLocation found for property binding."))
  | Some sourceSpan =>
      this_diagnostics_push
        (makeTemplateDiagnostic templateId mapping sourceSpan
           ts.DiagnosticCategory.Error
           (ngErrorCode ErrorCode.WRITE_TO_READ_ONLY_VARIABLE) errorMsg
           (Some
              {| text := lit "The variable " ++ PropertyWrite.name assignment
                         ++ lit " is declared here.";
                 span := or_else (TmplAstVariable.valueSpan target)
                                 (TmplAstVariable.sourceSpan target) |}))
  end.

Definition duplicateTemplateVar (templateId : TemplateId)
    (variable firstDecl : TmplAstVariable.t) : M unit :=
  mapping <- this_resolver_getSourceMapping templateId ;;
  let errorMsg :=
    lit "Cannot redeclare variable '" ++ TmplAstVariable.name variable
    ++ lit "' as it was previously declared elsewhere for the same template." in
  this_diagnostics_push
    (makeTemplateDiagnostic templateId mapping
       (TmplAstVariable.sourceSpan variable)
       ts.DiagnosticCategory.Error
       (ngErrorCode ErrorCode.DUPLICATE_VARIABLE_DECLARATION) errorMsg
       (Some
          {| text := lit "The variable '" ++ TmplAstVariable.name firstDecl
                     ++ lit "' was first declared here.";
             span := TmplAstVariable.sourceSpan firstDecl |})).

Definition requiresInlineTcb (templateId : TemplateId)
    (node : ClassDeclaration.t) : M unit :=
  this_diagnostics_push
    (makeInlineDiagnostic templateId ErrorCode.INLINE_TCB_REQUIRED
       (ClassDeclaration.name node)
       (lit "This component requires inline template type-checking, which is not supported by the current environment.")
       None).

Definition requiresInlineTypeConstructors (templateId : TemplateId)
    (node : ClassDeclaration.t) (directives : list ClassDeclaration.t)
  : M unit :=
  let message :=
    if 1 <? List.length directives
    then lit "This component uses directives which require inline type constructors, which are not supported by the current environment."
    else lit "This component uses a directive which requires an inline type constructor, which is not supported by the current environment." in
  this_diagnostics_push
    (makeInlineDiagnostic templateId ErrorCode.INLINE_TYPE_CTOR_REQUIRED
       (ClassDeclaration.name node) message
       (Some
          (map (fun dir =>
                  makeRelatedInformation (ClassDeclaration.name dir)
                    (lit "Requires an inline type constructor."))
               directives))).

(* ===================================================================== *)
(** ** Clients of the recorder *)
(* ===================================================================== *)

(** One call of a reporting method, with its arguments. *)
Inductive ReportCall :=
| CallMissingReferenceTarget (templateId : TemplateId)
    (ref : TmplAstReference.t)
| CallMissingPipe (templateId : TemplateId) (ast : BindingPipe.t)
| CallIllegalAssignmentToTemplateVar (templateId : TemplateId)
    (assignment : PropertyWrite.t) (target : TmplAstVariable.t)
| CallDuplicateTemplateVar (templateId : TemplateId)
    (variable firstDecl : TmplAstVariable.t)
| CallRequiresInlineTcb (templateId : TemplateId)
    (node : ClassDeclaration.t)
| CallRequiresInlineTypeConstructors (templateId : TemplateId)
    (node : ClassDeclaration.t) (directives : list ClassDeclaration.t).

Definition invoke (c : ReportCall) : M unit :=
  match c with
  | CallMissingReferenceTarget templateId ref =>
      missingReferenceTarget templateId ref
  | CallMissingPipe templateId ast =>
      missingPipe templateId ast
  | CallIllegalAssignmentToTemplateVar templateId assignment target =>
      illegalAssignmentToTemplateVar templateId assignment target
  | CallDuplicateTemplateVar templateId variable firstDecl =>
      duplicateTemplateVar templateId variable firstDecl
  | CallRequiresInlineTcb templateId node =>
      requiresInlineTcb templateId node
  | CallRequiresInlineTypeConstructors templateId node directives =>
      requiresInlineTypeConstructors templateId node directives
  end.

(** The template identifier a call passes. *)
Definition templateIdOf (c : ReportCall) : TemplateId :=
  match c with
  | CallMissingReferenceTarget templateId _
  | CallMissingPipe templateId _
  | CallIllegalAssignmentToTemplateVar templateId _ _
  | CallDuplicateTemplateVar templateId _ _
  | CallRequiresInlineTcb templateId _
  | CallRequiresInlineTypeConstructors templateId _ _ => templateId
  end.

(** A traversal performing the calls one after the other on the same
    recorder.  A call that throws is caught by the traversal, which goes
    on with the next call; the recorder stays as the throw left it. *)
Fixpoint invokeAll (cs : list ReportCall) (this : Recorder)
  : list (Completion unit) * Recorder :=
  match cs with
  | [] => ([], this)
  | c :: rest =>
      let r := invoke c this in
      let '(outcomes, last) := invokeAll rest (final r) in
      (outcome r :: outcomes, last)
  end.

(** What a call records when it is the only call made on a new recorder. *)
Definition reported (resolver : TemplateSourceResolver.t) (c : ReportCall)
  : list TemplateDiagnostic.t :=
  diagnostics (final (invoke c (new resolver))).

Definition succeeded {A : Type} (o : Completion A) : bool :=
  match o with
  | Normal _ => true
  | Throw _ => false
  end.

(** The receiver after one more record has been pushed. *)
Definition pushed (this : Recorder) (d : TemplateDiagnostic.t) : Recorder :=
  {| _diagnostics := _diagnostics this ++ [d]; resolver := resolver this |}.

(** A run returned normally and left one record more than [this] had. *)
Definition appendsOneRecord (this : Recorder) (r : Result unit) : Prop :=
  outcome r = Normal tt
  /\ exists d, diagnostics (final r) = diagnostics this ++ [d].

(** The internal fatal error: the [Error] a method throws itself. *)
Definition isInternalFatalError {A : Type} (o : Completion A) : bool :=
  match o with
  | Throw (Error _) => true
  | _ => false
  end.

(** The two wordings of [requiresInlineTypeConstructors]. *)
Definition pluralWording : js_string :=
  lit "This component uses directives which require inline type constructors, which are not supported by the current environment.".

Definition singularWording : js_string :=
  lit "This component uses a directive which requires an inline type constructor, which is not supported by the current environment.".

(** All code units of a string are stripped by [trim]. *)
Definition allWhiteSpace (s : js_string) : bool := forallb isWhiteSpace s.

(** A string neither starts nor ends with a code unit [trim] strips. *)
Definition noOuterWhiteSpace (s : js_string) : bool :=
  match s with
  | [] => true
  | c :: _ => negb (isWhiteSpace c) && negb (isWhiteSpace (last s c))
  end.

(* ===================================================================== *)
(** ** Concrete inputs *)
(* ===================================================================== *)

Fixpoint js_string_eqb (a b : js_string) : bool :=
  match a, b with
  | [], [] => true
  | x :: a', y :: b' => (x =? y)%N && js_string_eqb a' b'
  | _, _ => false
  end.

Module Fixture.

Definition tcb1 : TemplateId := lit "tcb1".
Definition tcb9 : TemplateId := lit "tcb9".

Definition mapping1 : TemplateSourceMapping :=
  {| mappingComponentFile := lit "app.component.ts";
     mappingTemplateUrl := None |}.

(** A resolver that knows the template [tcb1] only, and maps the
    offsets below 100 of it. *)
Definition resolver1 : TemplateSourceResolver.t :=
  {| TemplateSourceResolver.getSourceMapping := fun id =>
       if js_string_eqb id tcb1 then Some mapping1 else None;
     TemplateSourceResolver.toParseSourceSpan := fun id span =>
       if js_string_eqb id tcb1 && (abs_end span <? 100)%N
       then Some (mkParseSourceSpan (abs_start span + 1000)
                                    (abs_end span + 1000))
       else None |}.

Definition refFoo : TmplAstReference.t :=
  {| TmplAstReference.name := lit "r";
     TmplAstReference.value := lit "  foo  ";
     TmplAstReference.sourceSpan := mkParseSourceSpan 10 22;
     TmplAstReference.valueSpan := Some (mkParseSourceSpan 14 21) |}.

Definition refBare : TmplAstReference.t :=
  {| TmplAstReference.name := lit "r";
     TmplAstReference.value := lit "a b";
     TmplAstReference.sourceSpan := mkParseSourceSpan 10 12;
     TmplAstReference.valueSpan := None |}.

Definition pipeCurrency : BindingPipe.t :=
  {| BindingPipe.name := lit "currency";
     BindingPipe.nameSpan := mkAbsoluteSourceSpan 12 20;
     BindingPipe.sourceSpan := mkAbsoluteSourceSpan 4 20 |}.

Definition pipeSynthetic : BindingPipe.t :=
  {| BindingPipe.name := lit "currency";
     BindingPipe.nameSpan := mkAbsoluteSourceSpan 212 220;
     BindingPipe.sourceSpan := mkAbsoluteSourceSpan 204 220 |}.

Definition varItem : TmplAstVariable.t :=
  {| TmplAstVariable.name := lit "item";
     TmplAstVariable.value := lit "$implicit";
     TmplAstVariable.sourceSpan := mkParseSourceSpan 30 60;
     TmplAstVariable.valueSpan := None |}.

Definition varItemAgain : TmplAstVariable.t :=
  {| TmplAstVariable.name := lit "item";
     TmplAstVariable.value := lit "index";
     TmplAstVariable.sourceSpan := mkParseSourceSpan 70 90;
     TmplAstVariable.valueSpan := Some (mkParseSourceSpan 80 85) |}.

Definition writeItem : PropertyWrite.t :=
  {| PropertyWrite.name := lit "item";
     PropertyWrite.sourceSpan := mkAbsoluteSourceSpan 40 52 |}.

Definition writeOther : PropertyWrite.t :=
  {| PropertyWrite.name := lit "other";
     PropertyWrite.sourceSpan := mkAbsoluteSourceSpan 40 52 |}.

Definition writeSynthetic : PropertyWrite.t :=
  {| PropertyWrite.name := lit "item";
     PropertyWrite.sourceSpan := mkAbsoluteSourceSpan 240 252 |}.

Definition classApp : ClassDeclaration.t :=
  {| ClassDeclaration.name := ts.mkNode (lit "app.component.ts") 120 12 |}.

Definition classDirA : ClassDeclaration.t :=
  {| ClassDeclaration.name := ts.mkNode (lit "a.directive.ts") 33 4 |}.

Definition classDirB : ClassDeclaration.t :=
  {| ClassDeclaration.name := ts.mkNode (lit "b.directive.ts") 57 4 |}.

End Fixture.

(* ===================================================================== *)
(** ** Reading calls, resolver operations and more inputs *)
(* ===================================================================== *)



(** The method of a call is one of the two that take a class declaration
    and no template node. *)
Definition isInlineReport (c : ReportCall) : bool :=
  match c with
  | CallRequiresInlineTcb _ _
  | CallRequiresInlineTypeConstructors _ _ _ => true
  | _ => false
  end.

(** The template identifier a resolver operation was asked about. *)
Definition askedAbout (op : ResolverCall) : TemplateId :=
  match op with
  | GetSourceMapping templateId _
  | ToParseSourceSpan templateId _ _ => templateId
  end.

Definition isGetSourceMapping (op : ResolverCall) : bool :=
  match op with
  | GetSourceMapping _ _ => true
  | ToParseSourceSpan _ _ _ => false
  end.

Module MoreFixture.

(** The variable [Fixture.varItem] again, with a value and a value span:
    same name, same declaration span. *)
Definition varItemValued : TmplAstVariable.t :=
  {| TmplAstVariable.name := lit "item";
     TmplAstVariable.value := lit "index";
     TmplAstVariable.sourceSpan := mkParseSourceSpan 30 60;
     TmplAstVariable.valueSpan := Some (mkParseSourceSpan 41 46) |}.

Definition refBlank : TmplAstReference.t :=
  {| TmplAstReference.name := lit "r";
     TmplAstReference.value := lit "   ";
     TmplAstReference.sourceSpan := mkParseSourceSpan 10 18;
     TmplAstReference.valueSpan := None |}.

(** Another variable, declared at the value span of [varItemValued] and
    without a value span of its own. *)
Definition varOtherAtValue : TmplAstVariable.t :=
  {| TmplAstVariable.name := lit "other";
     TmplAstVariable.value := lit "$implicit";
     TmplAstVariable.sourceSpan := mkParseSourceSpan 41 46;
     TmplAstVariable.valueSpan := None |}.

End MoreFixture.

(* ===================================================================== *)
(** ** Facts about [trim] *)
(* ===================================================================== *)

Arguments lit : simpl never.

Lemma trimStart_split (s : js_string) :
  exists leading,
    s = leading ++ trimStart s /\ allWhiteSpace leading = true.
Proof.
  induction s as [| c rest IH]; simpl.
  - exists []. split; reflexivity.
  - destruct (isWhiteSpace c) eqn:Hc.
    + destruct IH as [leading [Heq Hws]].
      exists (c :: leading). simpl. rewrite Hc, Hws. split.
      * f_equal. exact Heq.
      * reflexivity.
    + exists []. split; reflexivity.
Qed.

Lemma trimStart_all (s : js_string) :
  allWhiteSpace s = true -> trimStart s = [].
Proof.
  induction s as [| c rest IH]; simpl; [reflexivity |].
  intros H. apply andb_true_iff in H. destruct H as [Hc Hrest].
  rewrite Hc. auto.
Qed.

Lemma trimStart_app (leading s : js_string) :
  allWhiteSpace leading = true -> trimStart (leading ++ s) = trimStart s.
Proof.
  induction leading as [| c rest IH]; simpl; [reflexivity |].
  intros H. apply andb_true_iff in H. destruct H as [Hc Hrest].
  rewrite Hc. auto.
Qed.

Lemma trimStart_fixed (c : code_unit) (s : js_string) :
  isWhiteSpace c = false -> trimStart (c :: s) = c :: s.
Proof. intros H. simpl. rewrite H. reflexivity. Qed.

Lemma allWhiteSpace_rev (s : js_string) :
  allWhiteSpace (rev s) = allWhiteSpace s.
Proof.
  unfold allWhiteSpace. induction s as [| c rest IH]; simpl; [reflexivity |].
  rewrite forallb_app, IH. simpl. rewrite andb_true_r. apply andb_comm.
Qed.

Lemma trimEnd_app_all (s trailing : js_string) :
  allWhiteSpace trailing = true -> trimEnd (s ++ trailing) = trimEnd s.
Proof.
  intros H. unfold trimEnd. rewrite rev_app_distr, trimStart_app; [reflexivity |].
  rewrite allWhiteSpace_rev. exact H.
Qed.

Lemma trimEnd_fixed (s : js_string) (c : code_unit) :
  isWhiteSpace c = false -> trimEnd (s ++ [c]) = s ++ [c].
Proof.
  intros H. unfold trimEnd. rewrite rev_app_distr. simpl rev at 2.
  simpl app. rewrite trimStart_fixed by exact H.
  simpl. rewrite rev_involutive. reflexivity.
Qed.

(** A string that neither starts nor ends with white space is either empty
    or has a last code unit that is not white space. *)
Lemma noOuterWhiteSpace_cases (s : js_string) :
  noOuterWhiteSpace s = true ->
  s = [] \/
  exists body c, s = body ++ [c] /\ isWhiteSpace c = false
                 /\ isWhiteSpace (hd c s) = false.
Proof.
  destruct s as [| c0 rest]; [left; reflexivity |].
  intros H. right. unfold noOuterWhiteSpace in H.
  apply andb_true_iff in H. destruct H as [Hhd Hlast].
  apply negb_true_iff in Hhd. apply negb_true_iff in Hlast.
  destruct (exists_last (l := c0 :: rest)) as [body [c Heq]]; [discriminate |].
  exists body, c. rewrite Heq in Hlast. rewrite last_last in Hlast.
  rewrite <- Heq. simpl. auto.
Qed.

(** [trim] is determined by the decomposition: white space, then a string
    without outer white space, then white space. *)
Lemma trim_unique (leading v trailing : js_string) :
  allWhiteSpace leading = true ->
  allWhiteSpace trailing = true ->
  noOuterWhiteSpace v = true ->
  trim (leading ++ v ++ trailing) = v.
Proof.
  intros Hl Ht Hv. unfold trim. rewrite trimStart_app by exact Hl.
  destruct (noOuterWhiteSpace_cases v Hv) as [-> | [body [c [Heq [Hc Hhd]]]]].
  - simpl. rewrite trimStart_all by exact Ht. reflexivity.
  - assert (Hfix : trimStart (v ++ trailing) = v ++ trailing).
    { destruct v as [| c0 rest].
      - destruct body; discriminate.
      - simpl in Hhd. simpl. rewrite Hhd. reflexivity. }
    rewrite Hfix, trimEnd_app_all by exact Ht.
    rewrite Heq. apply trimEnd_fixed. exact Hc.
Qed.

Lemma trimEnd_split (s : js_string) :
  exists trailing,
    s = trimEnd s ++ trailing /\ allWhiteSpace trailing = true.
Proof.
  unfold trimEnd.
  destruct (trimStart_split (rev s)) as [leading [Heq Hws]].
  exists (rev leading). split.
  - rewrite <- rev_app_distr, <- Heq, rev_involutive. reflexivity.
  - rewrite allWhiteSpace_rev. exact Hws.
Qed.

Lemma trimStart_head (s : js_string) (c : code_unit) :
  isWhiteSpace (hd c (trimStart s)) = true -> trimStart s = [].
Proof.
  induction s as [| c0 rest IH]; simpl; [reflexivity |].
  destruct (isWhiteSpace c0) eqn:Hc0; [exact IH |].
  simpl. rewrite Hc0. discriminate.
Qed.

Lemma trim_noOuterWhiteSpace (s : js_string) :
  noOuterWhiteSpace (trim s) = true.
Proof.
  unfold trim. set (t := trimStart s).
  destruct (trimEnd t) as [| c0 rest] eqn:He; [reflexivity |].
  unfold noOuterWhiteSpace. apply andb_true_iff. split; apply negb_true_iff.
  - destruct (trimEnd_split t) as [trailing [Heq _]]. rewrite He in Heq.
    destruct (isWhiteSpace c0) eqn:Hc0; [| reflexivity].
    assert (Hnil : trimStart s = []).
    { apply trimStart_head with (c := c0). fold t. rewrite Heq. exact Hc0. }
    fold t in Hnil. rewrite Hnil in He. discriminate.
  - unfold trimEnd in He.
    destruct (trimStart (rev t)) as [| c1 rest1] eqn:Hr; [discriminate |].
    simpl in He. rewrite <- He, last_last.
    destruct (isWhiteSpace c1) eqn:Hc1; [| reflexivity].
    assert (Hnil : trimStart (rev t) = []).
    { apply trimStart_head with (c := c1). rewrite Hr. exact Hc1. }
    rewrite Hnil in Hr. discriminate.
Qed.

(** [trim] keeps the string between its leading and its trailing white
    space, and what it keeps neither starts nor ends with white space. *)
Lemma trim_spec (s : js_string) :
  exists leading trailing,
    s = leading ++ trim s ++ trailing
    /\ allWhiteSpace leading = true
    /\ allWhiteSpace trailing = true
    /\ noOuterWhiteSpace (trim s) = true.
Proof.
  destruct (trimStart_split s) as [leading [Hs Hl]].
  destruct (trimEnd_split (trimStart s)) as [trailing [Ht Htr]].
  exists leading, trailing. repeat split; auto.
  - unfold trim. rewrite <- Ht. exact Hs.
  - apply trim_noOuterWhiteSpace.
Qed.

(* ===================================================================== *)
(** ** Runs of the methods *)
(* ===================================================================== *)

Import TemplateSourceResolver.

Ltac run_method :=
  unfold missingReferenceTarget, missingPipe, illegalAssignmentToTemplateVar,
    duplicateTemplateVar, requiresInlineTcb, requiresInlineTypeConstructors,
    bind, throw, ret, this_resolver_getSourceMapping,
    this_resolver_toParseSourceSpan, this_diagnostics_push, pushed;
  cbn [outcome final calls app].

Lemma missingReferenceTarget_unregistered this templateId ref :
  getSourceMapping (resolver this) templateId = None ->
  missingReferenceTarget templateId ref this
  = mkResult (Throw (ContractViolation templateId)) this
      [GetSourceMapping templateId None].
Proof. intros H. run_method. rewrite H. reflexivity. Qed.

Lemma missingReferenceTarget_run this templateId mapping ref :
  getSourceMapping (resolver this) templateId = Some mapping ->
  missingReferenceTarget templateId ref this
  = mkResult (Normal tt)
      (pushed this
         (makeTemplateDiagnostic templateId mapping
            (or_else (TmplAstReference.valueSpan ref)
                     (TmplAstReference.sourceSpan ref))
            ts.DiagnosticCategory.Error
            (ngErrorCode ErrorCode.MISSING_REFERENCE_TARGET)
            (lit "No directive found with exportAs '"
             ++ trim (TmplAstReference.value ref) ++ lit "'.")
            None))
      [GetSourceMapping templateId (Some mapping)].
Proof. intros H. run_method. rewrite H. reflexivity. Qed.

Lemma missingPipe_unregistered this templateId ast :
  getSourceMapping (resolver this) templateId = None ->
  missingPipe templateId ast this
  = mkResult (Throw (ContractViolation templateId)) this
      [GetSourceMapping templateId None].
Proof. intros H. run_method. rewrite H. reflexivity. Qed.

Lemma missingPipe_absent this templateId mapping ast :
  getSourceMapping (resolver this) templateId = Some mapping ->
  toParseSourceSpan (resolver this) templateId (BindingPipe.nameSpan ast)
  = None ->
  missingPipe templateId ast this
  = mkResult
      (Throw (Error
         (lit "Assertion failure: no SourceLocation found for usage of pipe '"
          ++ BindingPipe.name ast ++ lit "'.")))
      this
      [GetSourceMapping templateId (Some mapping);
       ToParseSourceSpan templateId (BindingPipe.nameSpan ast) None].
Proof. intros H1 H2. run_method. rewrite H1. cbn. rewrite H2. reflexivity. Qed.

Lemma missingPipe_run this templateId mapping sourceSpan ast :
  getSourceMapping (resolver this) templateId = Some mapping ->
  toParseSourceSpan (resolver this) templateId (BindingPipe.nameSpan ast)
  = Some sourceSpan ->
  missingPipe templateId ast this
  = mkResult (Normal tt)
      (pushed this
         (makeTemplateDiagnostic templateId mapping sourceSpan
            ts.DiagnosticCategory.Error (ngErrorCode ErrorCode.MISSING_PIPE)
            (lit "No pipe found with name '" ++ BindingPipe.name ast
             ++ lit "'.")
            None))
      [GetSourceMapping templateId (Some mapping);
       ToParseSourceSpan templateId (BindingPipe.nameSpan ast)
         (Some sourceSpan)].
Proof. intros H1 H2. run_method. rewrite H1. cbn. rewrite H2. reflexivity. Qed.

Lemma illegalAssignmentToTemplateVar_unregistered this templateId
    assignment target :
  getSourceMapping (resolver this) templateId = None ->
  illegalAssignmentToTemplateVar templateId assignment target this
  = mkResult (Throw (ContractViolation templateId)) this
      [GetSourceMapping templateId None].
Proof. intros H. run_method. rewrite H. reflexivity. Qed.

Lemma illegalAssignmentToTemplateVar_absent this templateId mapping
    assignment target :
  getSourceMapping (resolver this) templateId = Some mapping ->
  toParseSourceSpan (resolver this) templateId
    (PropertyWrite.sourceSpan assignment) = None ->
  illegalAssignmentToTemplateVar templateId assignment target this
  = mkResult
      (Throw (Error
         (lit "Assertion failure: no SourceLocation found for property binding.")))
      this
      [GetSourceMapping templateId (Some mapping);
       ToParseSourceSpan templateId (PropertyWrite.sourceSpan assignment)
         None].
Proof. intros H1 H2. run_method. rewrite H1. cbn. rewrite H2. reflexivity. Qed.

Lemma illegalAssignmentToTemplateVar_run this templateId mapping sourceSpan
    assignment target :
  getSourceMapping (resolver this) templateId = Some mapping ->
  toParseSourceSpan (resolver this) templateId
    (PropertyWrite.sourceSpan assignment) = Some sourceSpan ->
  illegalAssignmentToTemplateVar templateId assignment target this
  = mkResult (Normal tt)
      (pushed this
         (makeTemplateDiagnostic templateId mapping sourceSpan
            ts.DiagnosticCategory.Error
            (ngErrorCode ErrorCode.WRITE_TO_READ_ONLY_VARIABLE)
            (lit "Cannot use variable '" ++ PropertyWrite.name assignment
             ++ lit "' as the left-hand side of an assignment expression. Template variables are read-only.")
            (Some
               {| text := lit "The variable "
                          ++ PropertyWrite.name assignment
                          ++ lit " is declared here.";
                  span := or_else (TmplAstVariable.valueSpan target)
                                  (TmplAstVariable.sourceSpan target) |})))
      [GetSourceMapping templateId (Some mapping);
       ToParseSourceSpan templateId (PropertyWrite.sourceSpan assignment)
         (Some sourceSpan)].
Proof. intros H1 H2. run_method. rewrite H1. cbn. rewrite H2. reflexivity. Qed.

Lemma duplicateTemplateVar_unregistered this templateId variable firstDecl :
  getSourceMapping (resolver this) templateId = None ->
  duplicateTemplateVar templateId variable firstDecl this
  = mkResult (Throw (ContractViolation templateId)) this
      [GetSourceMapping templateId None].
Proof. intros H. run_method. rewrite H. reflexivity. Qed.

Lemma duplicateTemplateVar_run this templateId mapping variable firstDecl :
  getSourceMapping (resolver this) templateId = Some mapping ->
  duplicateTemplateVar templateId variable firstDecl this
  = mkResult (Normal tt)
      (pushed this
         (makeTemplateDiagnostic templateId mapping
            (TmplAstVariable.sourceSpan variable)
            ts.DiagnosticCategory.Error
            (ngErrorCode ErrorCode.DUPLICATE_VARIABLE_DECLARATION)
            (lit "Cannot redeclare variable '"
             ++ TmplAstVariable.name variable
             ++ lit "' as it was previously declared elsewhere for the same template.")
            (Some
               {| text := lit "The variable '"
                          ++ TmplAstVariable.name firstDecl
                          ++ lit "' was first declared here.";
                  span := TmplAstVariable.sourceSpan firstDecl |})))
      [GetSourceMapping templateId (Some mapping)].
Proof. intros H. run_method. rewrite H. reflexivity. Qed.

Lemma requiresInlineTcb_run this templateId node :
  requiresInlineTcb templateId node this
  = mkResult (Normal tt)
      (pushed this
         (makeInlineDiagnostic templateId ErrorCode.INLINE_TCB_REQUIRED
            (ClassDeclaration.name node)
            (lit "This component requires inline template type-checking, which is not supported by the current environment.")
            None))
      [].
Proof. reflexivity. Qed.

Lemma requiresInlineTypeConstructors_run this templateId node directives :
  requiresInlineTypeConstructors templateId node directives this
  = mkResult (Normal tt)
      (pushed this
         (makeInlineDiagnostic templateId ErrorCode.INLINE_TYPE_CTOR_REQUIRED
            (ClassDeclaration.name node)
            (if 1 <? List.length directives
             then pluralWording else singularWording)
            (Some
               (map (fun dir =>
                       makeRelatedInformation (ClassDeclaration.name dir)
                         (lit "Requires an inline type constructor."))
                    directives))))
      [].
Proof. reflexivity. Qed.

(* ===================================================================== *)
(** ** Concrete runs *)
(* ===================================================================== *)

(** The ends of the ranges: U+200A is white space, the zero-width space
    U+200B and U+180E are not. *)
Example isWhiteSpace_edges :
  map isWhiteSpace [8; 9; 13; 14; 32; 8191; 8192; 8202; 8203; 6158]%N
  = [false; true; true; false; true; false; true; true; false; false].
Proof. reflexivity. Qed.

Example trim_foo : trim (lit "  foo  ") = lit "foo".
Proof. reflexivity. Qed.

Example trim_keeps_inner_space : trim (lit " a  b ") = lit "a  b".
Proof. reflexivity. Qed.

(** A no-break space, a tab and a line feed are stripped as well. *)
Example trim_unicode_space :
  trim ([160; 9] ++ lit "x" ++ [10; 8232; 65279])%N = lit "x".
Proof. reflexivity. Qed.

Example trim_blank : trim (lit "   ") = [].
Proof. reflexivity. Qed.

Example missingReferenceTarget_foo :
  let r :=
    missingReferenceTarget Fixture.tcb1 Fixture.refFoo
      (new Fixture.resolver1) in
  outcome r = Normal tt
  /\ map TemplateDiagnostic.messageText (diagnostics (final r))
     = [lit "No directive found with exportAs 'foo'."]
  /\ map TemplateDiagnostic.anchor (diagnostics (final r))
     = [InTemplate Fixture.mapping1 (mkParseSourceSpan 14 21)].
Proof. repeat split. Qed.

Example missingReferenceTarget_without_value_span :
  map TemplateDiagnostic.anchor
    (diagnostics
       (final (missingReferenceTarget Fixture.tcb1 Fixture.refBare
                 (new Fixture.resolver1))))
  = [InTemplate Fixture.mapping1 (mkParseSourceSpan 10 12)].
Proof. reflexivity. Qed.

Example missingPipe_currency :
  let r :=
    missingPipe Fixture.tcb1 Fixture.pipeCurrency (new Fixture.resolver1) in
  outcome r = Normal tt
  /\ map TemplateDiagnostic.messageText (diagnostics (final r))
     = [lit "No pipe found with name 'currency'."].
Proof. repeat split. Qed.

Example missingPipe_unmappable_name :
  let r :=
    missingPipe Fixture.tcb1 Fixture.pipeSynthetic (new Fixture.resolver1) in
  outcome r
  = Throw (Error (lit "Assertion failure: no SourceLocation found for usage of pipe 'currency'."))
  /\ diagnostics (final r) = [].
Proof. repeat split. Qed.

Example missingPipe_unknown_template :
  let r :=
    missingPipe Fixture.tcb9 Fixture.pipeCurrency (new Fixture.resolver1) in
  outcome r = Throw (ContractViolation Fixture.tcb9)
  /\ diagnostics (final r) = []
  /\ calls r = [GetSourceMapping Fixture.tcb9 None].
Proof. repeat split. Qed.

Example illegalAssignmentToTemplateVar_unmappable :
  let r :=
    illegalAssignmentToTemplateVar Fixture.tcb1 Fixture.writeSynthetic
      Fixture.varItem (new Fixture.resolver1) in
  outcome r
  = Throw (Error (lit "Assertion failure: no SourceLocation found for property binding."))
  /\ diagnostics (final r) = [].
Proof. repeat split. Qed.

Example illegalAssignmentToTemplateVar_other :
  map TemplateDiagnostic.relatedInformation
    (diagnostics
       (final (illegalAssignmentToTemplateVar Fixture.tcb1 Fixture.writeOther
                 Fixture.varItem (new Fixture.resolver1))))
  = [[ {| relatedText := lit "The variable other is declared here.";
          relatedLocation :=
            InTemplate Fixture.mapping1 (mkParseSourceSpan 30 60) |} ]].
Proof. reflexivity. Qed.

Example duplicateTemplateVar_item :
  let r :=
    duplicateTemplateVar Fixture.tcb1 Fixture.varItemAgain Fixture.varItem
      (new Fixture.resolver1) in
  map TemplateDiagnostic.messageText (diagnostics (final r))
  = [lit "Cannot redeclare variable 'item' as it was previously declared elsewhere for the same template."]
  /\ map TemplateDiagnostic.relatedInformation (diagnostics (final r))
     = [[ {| relatedText := lit "The variable 'item' was first declared here.";
             relatedLocation :=
               InTemplate Fixture.mapping1 (mkParseSourceSpan 30 60) |} ]].
Proof. repeat split. Qed.

Example requiresInlineTypeConstructors_one :
  let r :=
    requiresInlineTypeConstructors Fixture.tcb1 Fixture.classApp
      [Fixture.classDirA] (new Fixture.resolver1) in
  map TemplateDiagnostic.messageText (diagnostics (final r))
  = [singularWording]
  /\ map TemplateDiagnostic.relatedInformation (diagnostics (final r))
     = [[ makeRelatedInformation (ClassDeclaration.name Fixture.classDirA)
            (lit "Requires an inline type constructor.") ]].
Proof. repeat split. Qed.

Example requiresInlineTypeConstructors_two :
  let r :=
    requiresInlineTypeConstructors Fixture.tcb1 Fixture.classApp
      [Fixture.classDirA; Fixture.classDirB] (new Fixture.resolver1) in
  map TemplateDiagnostic.messageText (diagnostics (final r))
  = [pluralWording]
  /\ map TemplateDiagnostic.relatedInformation (diagnostics (final r))
     = [[ makeRelatedInformation (ClassDeclaration.name Fixture.classDirA)
            (lit "Requires an inline type constructor.");
          makeRelatedInformation (ClassDeclaration.name Fixture.classDirB)
            (lit "Requires an inline type constructor.") ]].
Proof. repeat split. Qed.

(** Three calls, the second of which throws: two records, in call order. *)
Example invokeAll_three_calls :
  let run :=
    invokeAll
      [CallMissingPipe Fixture.tcb1 Fixture.pipeCurrency;
       CallMissingPipe Fixture.tcb1 Fixture.pipeSynthetic;
       CallRequiresInlineTcb Fixture.tcb9 Fixture.classApp]
      (new Fixture.resolver1) in
  map succeeded (fst run) = [true; false; true]
  /\ map TemplateDiagnostic.code (diagnostics (snd run))
     = [ngErrorCode ErrorCode.MISSING_PIPE;
        ngErrorCode ErrorCode.INLINE_TCB_REQUIRED]
  /\ map TemplateDiagnostic.templateId (diagnostics (snd run))
     = [Fixture.tcb1; Fixture.tcb9].
Proof. repeat split. Qed.

(* ===================================================================== *)
(** ** The internal fatal error of [missingPipe] and
       [illegalAssignmentToTemplateVar] *)
(* ===================================================================== *)

(** C1. [missingPipe] and [illegalAssignmentToTemplateVar] raise the
    internal fatal error (the [Error] they build themselves) exactly when
    the resolver's [toParseSourceSpan] translation of the relevant span
    (the pipe's name span, the assignment's span) answers absent; for a
    registered template this is exactly when the resolver maps the span to
    absent.  Whenever either method raises, nothing has been appended:
    the diagnostics are those before the call. *)
Theorem fatal_error_iff_translation_absent :
  forall (this : Recorder) (templateId : TemplateId) (ast : BindingPipe.t)
         (assignment : PropertyWrite.t) (target : TmplAstVariable.t),
    let pipeRun := missingPipe templateId ast this in
    let writeRun :=
      illegalAssignmentToTemplateVar templateId assignment target this in
    (isInternalFatalError (outcome pipeRun) = true
     <-> In (ToParseSourceSpan templateId (BindingPipe.nameSpan ast) None)
            (calls pipeRun))
    /\ (isInternalFatalError (outcome writeRun) = true
        <-> In (ToParseSourceSpan templateId
                  (PropertyWrite.sourceSpan assignment) None)
               (calls writeRun))
    /\ (forall mapping,
          getSourceMapping (resolver this) templateId = Some mapping ->
          (isInternalFatalError (outcome pipeRun) = true
           <-> toParseSourceSpan (resolver this) templateId
                 (BindingPipe.nameSpan ast) = None)
          /\ (isInternalFatalError (outcome writeRun) = true
              <-> toParseSourceSpan (resolver this) templateId
                    (PropertyWrite.sourceSpan assignment) = None))
    /\ (succeeded (outcome pipeRun) = false ->
        diagnostics (final pipeRun) = diagnostics this)
    /\ (succeeded (outcome writeRun) = false ->
        diagnostics (final writeRun) = diagnostics this).
Proof.
  intros this templateId ast assignment target pipeRun writeRun.
  subst pipeRun writeRun.
  destruct (getSourceMapping (resolver this) templateId)
    as [mapping |] eqn:Hmap.
  - destruct (toParseSourceSpan (resolver this) templateId
                (BindingPipe.nameSpan ast)) as [pipeSpan |] eqn:Hpipe;
    destruct (toParseSourceSpan (resolver this) templateId
                (PropertyWrite.sourceSpan assignment))
      as [writeSpan |] eqn:Hwrite;
    repeat match goal with
    | |- context [missingPipe _ _ _] =>
        first [ rewrite (missingPipe_run _ _ _ _ _ Hmap Hpipe)
              | rewrite (missingPipe_absent _ _ _ _ Hmap Hpipe) ]
    | |- context [illegalAssignmentToTemplateVar _ _ _ _] =>
        first [ rewrite (illegalAssignmentToTemplateVar_run _ _ _ _ _ target Hmap Hwrite)
              | rewrite (illegalAssignmentToTemplateVar_absent _ _ _ _ target
                           Hmap Hwrite) ]
    end;
    cbn [outcome final calls isInternalFatalError succeeded In];
    (repeat split; intros; try reflexivity; try discriminate;
     try (intuition congruence); try (inversion 1; discriminate)).
  - rewrite (missingPipe_unregistered _ _ ast Hmap).
    rewrite (illegalAssignmentToTemplateVar_unregistered _ _ assignment target Hmap).
    cbn [outcome final calls isInternalFatalError succeeded In].
    repeat split; intros; try reflexivity; try discriminate;
      intuition congruence.
Qed.

(* ===================================================================== *)
(** ** The reports that cannot fail *)
(* ===================================================================== *)

(** C4. On a template the resolver knows ([getSourceMapping] answers),
    each of [missingReferenceTarget], [duplicateTemplateVar],
    [requiresInlineTcb] and [requiresInlineTypeConstructors] returns
    normally, whatever its other arguments, and appends exactly one
    record to the diagnostics. *)
Theorem user_error_reports_always_succeed :
  forall (this : Recorder) (templateId : TemplateId)
         (mapping : TemplateSourceMapping)
         (ref : TmplAstReference.t) (variable firstDecl : TmplAstVariable.t)
         (node : ClassDeclaration.t) (directives : list ClassDeclaration.t),
    getSourceMapping (resolver this) templateId = Some mapping ->
    appendsOneRecord this (missingReferenceTarget templateId ref this)
    /\ appendsOneRecord this
         (duplicateTemplateVar templateId variable firstDecl this)
    /\ appendsOneRecord this (requiresInlineTcb templateId node this)
    /\ appendsOneRecord this
         (requiresInlineTypeConstructors templateId node directives this).
Proof.
  intros this templateId mapping ref variable firstDecl node directives Hmap.
  rewrite (missingReferenceTarget_run _ _ _ ref Hmap).
  rewrite (duplicateTemplateVar_run _ _ _ variable firstDecl Hmap).
  rewrite requiresInlineTcb_run, requiresInlineTypeConstructors_run.
  unfold appendsOneRecord, diagnostics, pushed. cbn [outcome final _diagnostics].
  repeat split; eexists; reflexivity.
Qed.

Lemma user_error_reports_always_succeed_witness :
  getSourceMapping (resolver (new Fixture.resolver1)) Fixture.tcb1
  = Some Fixture.mapping1
  /\ appendsOneRecord (new Fixture.resolver1)
       (missingReferenceTarget Fixture.tcb1 Fixture.refFoo
          (new Fixture.resolver1))
  /\ appendsOneRecord (new Fixture.resolver1)
       (duplicateTemplateVar Fixture.tcb1 Fixture.varItemAgain
          Fixture.varItem (new Fixture.resolver1))
  /\ appendsOneRecord (new Fixture.resolver1)
       (requiresInlineTcb Fixture.tcb1 Fixture.classApp
          (new Fixture.resolver1))
  /\ appendsOneRecord (new Fixture.resolver1)
       (requiresInlineTypeConstructors Fixture.tcb1 Fixture.classApp
          [Fixture.classDirA; Fixture.classDirB] (new Fixture.resolver1)).
Proof.
  split.
  - reflexivity.
  - apply (user_error_reports_always_succeed (new Fixture.resolver1)
             Fixture.tcb1 Fixture.mapping1 Fixture.refFoo
             Fixture.varItemAgain Fixture.varItem
             Fixture.classApp [Fixture.classDirA; Fixture.classDirB]).
    reflexivity.
Defined.

(* ===================================================================== *)
(** ** What each report records *)
(* ===================================================================== *)

(** C5. On a template the resolver knows, [missingReferenceTarget]
    appends a record whose message is
    [No directive found with exportAs '<v>'.], where [<v>] is the
    reference's raw value without its leading and trailing white space
    and with everything in between kept as it is, and whose primary
    anchor is the reference's value span when it has one, else its full
    span. *)
Theorem missingReferenceTarget_message_and_anchor :
  forall (this : Recorder) (templateId : TemplateId)
         (mapping : TemplateSourceMapping) (ref : TmplAstReference.t),
    getSourceMapping (resolver this) templateId = Some mapping ->
    let r := missingReferenceTarget templateId ref this in
    exists d leading v trailing,
      diagnostics (final r) = diagnostics this ++ [d]
      /\ TmplAstReference.value ref = leading ++ v ++ trailing
      /\ allWhiteSpace leading = true
      /\ allWhiteSpace trailing = true
      /\ noOuterWhiteSpace v = true
      /\ TemplateDiagnostic.messageText d
         = lit "No directive found with exportAs '" ++ v ++ lit "'."
      /\ TemplateDiagnostic.anchor d
         = InTemplate mapping
             match TmplAstReference.valueSpan ref with
             | Some valueSpan => valueSpan
             | None => TmplAstReference.sourceSpan ref
             end.
Proof.
  intros this templateId mapping ref Hmap r. subst r.
  rewrite (missingReferenceTarget_run _ _ _ ref Hmap).
  destruct (trim_spec (TmplAstReference.value ref))
    as [leading [trailing [Hsplit [Hl [Ht Hv]]]]].
  eexists. exists leading, (trim (TmplAstReference.value ref)), trailing.
  split; [reflexivity |].
  repeat split; auto.
Qed.

Lemma missingReferenceTarget_message_and_anchor_witness :
  exists d leading v trailing,
    diagnostics
      (final (missingReferenceTarget Fixture.tcb1 Fixture.refFoo
                (new Fixture.resolver1)))
    = diagnostics (new Fixture.resolver1) ++ [d]
    /\ TmplAstReference.value Fixture.refFoo = leading ++ v ++ trailing
    /\ allWhiteSpace leading = true
    /\ allWhiteSpace trailing = true
    /\ noOuterWhiteSpace v = true
    /\ TemplateDiagnostic.messageText d
       = lit "No directive found with exportAs '" ++ v ++ lit "'."
    /\ TemplateDiagnostic.anchor d
       = InTemplate Fixture.mapping1
           match TmplAstReference.valueSpan Fixture.refFoo with
           | Some valueSpan => valueSpan
           | None => TmplAstReference.sourceSpan Fixture.refFoo
           end.
Proof.
  exact (missingReferenceTarget_message_and_anchor (new Fixture.resolver1)
           Fixture.tcb1 Fixture.mapping1 Fixture.refFoo eq_refl).
Defined.

(** C6. When the template is known and the assignment's span translates,
    the record [illegalAssignmentToTemplateVar] appends carries exactly
    one secondary annotation, anchored at the target variable's value
    span when it has one, else at its declaration span. *)
Theorem illegalAssignmentToTemplateVar_one_annotation :
  forall (this : Recorder) (templateId : TemplateId)
         (mapping : TemplateSourceMapping) (sourceSpan : ParseSourceSpan)
         (assignment : PropertyWrite.t) (target : TmplAstVariable.t),
    getSourceMapping (resolver this) templateId = Some mapping ->
    toParseSourceSpan (resolver this) templateId
      (PropertyWrite.sourceSpan assignment) = Some sourceSpan ->
    let r := illegalAssignmentToTemplateVar templateId assignment target this in
    exists d annotation,
      diagnostics (final r) = diagnostics this ++ [d]
      /\ TemplateDiagnostic.relatedInformation d = [annotation]
      /\ relatedLocation annotation
         = InTemplate mapping
             match TmplAstVariable.valueSpan target with
             | Some valueSpan => valueSpan
             | None => TmplAstVariable.sourceSpan target
             end.
Proof.
  intros this templateId mapping sourceSpan assignment target Hmap Hspan r.
  subst r.
  rewrite (illegalAssignmentToTemplateVar_run _ _ _ _ _ target Hmap Hspan).
  do 2 eexists. split; [reflexivity |]. split; reflexivity.
Qed.

Lemma illegalAssignmentToTemplateVar_one_annotation_witness :
  exists d annotation,
    diagnostics
      (final (illegalAssignmentToTemplateVar Fixture.tcb1 Fixture.writeItem
                Fixture.varItemAgain (new Fixture.resolver1)))
    = diagnostics (new Fixture.resolver1) ++ [d]
    /\ TemplateDiagnostic.relatedInformation d = [annotation]
    /\ relatedLocation annotation
       = InTemplate Fixture.mapping1
           match TmplAstVariable.valueSpan Fixture.varItemAgain with
           | Some valueSpan => valueSpan
           | None => TmplAstVariable.sourceSpan Fixture.varItemAgain
           end.
Proof.
  exact (illegalAssignmentToTemplateVar_one_annotation
           (new Fixture.resolver1) Fixture.tcb1 Fixture.mapping1
           (mkParseSourceSpan 1040 1052) Fixture.writeItem
           Fixture.varItemAgain eq_refl eq_refl).
Defined.

(** C7. On a template the resolver knows, [duplicateTemplateVar] with
    variable [v] and first declaration [f] appends a record with message
    [Cannot redeclare variable '<v.name>' as it was previously declared
    elsewhere for the same template.], anchored at [v]'s own declaration
    span, with exactly one secondary annotation, anchored at [f]'s own
    span, saying [The variable '<f.name>' was first declared here.]
    Neither span goes through the resolver: the only resolver operation
    of the call is [getSourceMapping]. *)
Theorem duplicateTemplateVar_message_and_anchors :
  forall (this : Recorder) (templateId : TemplateId)
         (mapping : TemplateSourceMapping)
         (variable firstDecl : TmplAstVariable.t),
    getSourceMapping (resolver this) templateId = Some mapping ->
    let r := duplicateTemplateVar templateId variable firstDecl this in
    exists d annotation,
      diagnostics (final r) = diagnostics this ++ [d]
      /\ TemplateDiagnostic.messageText d
         = lit "Cannot redeclare variable '" ++ TmplAstVariable.name variable
           ++ lit "' as it was previously declared elsewhere for the same template."
      /\ TemplateDiagnostic.anchor d
         = InTemplate mapping (TmplAstVariable.sourceSpan variable)
      /\ TemplateDiagnostic.relatedInformation d = [annotation]
      /\ relatedLocation annotation
         = InTemplate mapping (TmplAstVariable.sourceSpan firstDecl)
      /\ relatedText annotation
         = lit "The variable '" ++ TmplAstVariable.name firstDecl
           ++ lit "' was first declared here."
      /\ calls r = [GetSourceMapping templateId (Some mapping)].
Proof.
  intros this templateId mapping variable firstDecl Hmap r. subst r.
  rewrite (duplicateTemplateVar_run _ _ _ variable firstDecl Hmap).
  do 2 eexists. split; [reflexivity |]. repeat split; reflexivity.
Qed.

Lemma duplicateTemplateVar_message_and_anchors_witness :
  let r :=
    duplicateTemplateVar Fixture.tcb1 Fixture.varItemAgain Fixture.varItem
      (new Fixture.resolver1) in
  exists d annotation,
    diagnostics (final r) = diagnostics (new Fixture.resolver1) ++ [d]
    /\ TemplateDiagnostic.messageText d
       = lit "Cannot redeclare variable '"
         ++ TmplAstVariable.name Fixture.varItemAgain
         ++ lit "' as it was previously declared elsewhere for the same template."
    /\ TemplateDiagnostic.anchor d
       = InTemplate Fixture.mapping1
           (TmplAstVariable.sourceSpan Fixture.varItemAgain)
    /\ TemplateDiagnostic.relatedInformation d = [annotation]
    /\ relatedLocation annotation
       = InTemplate Fixture.mapping1
           (TmplAstVariable.sourceSpan Fixture.varItem)
    /\ relatedText annotation
       = lit "The variable '" ++ TmplAstVariable.name Fixture.varItem
         ++ lit "' was first declared here."
    /\ calls r = [GetSourceMapping Fixture.tcb1 (Some Fixture.mapping1)].
Proof.
  exact (duplicateTemplateVar_message_and_anchors (new Fixture.resolver1)
           Fixture.tcb1 Fixture.mapping1 Fixture.varItemAgain Fixture.varItem
           eq_refl).
Defined.

(** C9. [requiresInlineTcb] returns normally with one record appended;
    the record's message is one fixed text, the same for every template
    identifier and declaring class, its primary anchor is the declaring
    class's own declaration, and the call performs no resolver operation
    at all. *)
Theorem requiresInlineTcb_fixed_message_no_resolver :
  forall (this : Recorder) (templateId : TemplateId)
         (node : ClassDeclaration.t),
    let r := requiresInlineTcb templateId node this in
    outcome r = Normal tt
    /\ calls r = []
    /\ exists d,
         diagnostics (final r) = diagnostics this ++ [d]
         /\ TemplateDiagnostic.messageText d
            = lit "This component requires inline template type-checking, which is not supported by the current environment."
         /\ TemplateDiagnostic.anchor d = AtNode (ClassDeclaration.name node).
Proof.
  intros this templateId node r. subst r.
  rewrite requiresInlineTcb_run. cbn [outcome calls final].
  split; [reflexivity |]. split; [reflexivity |].
  eexists. split; [reflexivity |]. split; reflexivity.
Qed.

(** C10. The single annotation of the record
    [illegalAssignmentToTemplateVar] appends reads
    [The variable <n> is declared here.], where [<n>] is the name the
    assignment writes to, not the name of the target variable, and is put
    in the text without quotes around it: when the two names differ, the
    text is not the one naming the target variable. *)
Theorem illegalAssignmentToTemplateVar_annotation_names_assignment :
  forall (this : Recorder) (templateId : TemplateId)
         (mapping : TemplateSourceMapping) (sourceSpan : ParseSourceSpan)
         (assignment : PropertyWrite.t) (target : TmplAstVariable.t),
    getSourceMapping (resolver this) templateId = Some mapping ->
    toParseSourceSpan (resolver this) templateId
      (PropertyWrite.sourceSpan assignment) = Some sourceSpan ->
    let r := illegalAssignmentToTemplateVar templateId assignment target this in
    exists d annotation,
      diagnostics (final r) = diagnostics this ++ [d]
      /\ TemplateDiagnostic.relatedInformation d = [annotation]
      /\ relatedText annotation
         = lit "The variable " ++ PropertyWrite.name assignment
           ++ lit " is declared here."
      /\ (PropertyWrite.name assignment <> TmplAstVariable.name target ->
          relatedText annotation
          <> lit "The variable " ++ TmplAstVariable.name target
             ++ lit " is declared here.")
      /\ relatedText annotation
         <> lit "The variable '" ++ PropertyWrite.name assignment
            ++ lit "' is declared here.".
Proof.
  intros this templateId mapping sourceSpan assignment target Hmap Hspan r.
  subst r.
  rewrite (illegalAssignmentToTemplateVar_run _ _ _ _ _ target Hmap Hspan).
  do 2 eexists. split; [reflexivity |]. split; [reflexivity |].
  cbn [relatedText]. split; [reflexivity |]. split.
  - intros Hne Heq. apply app_inv_head in Heq. apply app_inv_tail in Heq.
    contradiction.
  - intros Heq.
    change (lit "The variable '") with (lit "The variable " ++ [39%N]) in Heq.
    rewrite <- app_assoc in Heq. apply app_inv_head in Heq.
    apply (f_equal (@List.length code_unit)) in Heq.
    rewrite !length_app in Heq.
    change (List.length (lit " is declared here.")) with 18 in Heq.
    change (List.length (lit "' is declared here.")) with 19 in Heq.
    cbn [List.length] in Heq. lia.
Qed.

Lemma illegalAssignmentToTemplateVar_annotation_names_assignment_witness :
  exists d annotation,
    diagnostics
      (final (illegalAssignmentToTemplateVar Fixture.tcb1 Fixture.writeOther
                Fixture.varItem (new Fixture.resolver1)))
    = diagnostics (new Fixture.resolver1) ++ [d]
    /\ TemplateDiagnostic.relatedInformation d = [annotation]
    /\ relatedText annotation
       = lit "The variable " ++ PropertyWrite.name Fixture.writeOther
         ++ lit " is declared here."
    /\ (PropertyWrite.name Fixture.writeOther
        <> TmplAstVariable.name Fixture.varItem ->
        relatedText annotation
        <> lit "The variable " ++ TmplAstVariable.name Fixture.varItem
           ++ lit " is declared here.")
    /\ relatedText annotation
       <> lit "The variable '" ++ PropertyWrite.name Fixture.writeOther
          ++ lit "' is declared here.".
Proof.
  exact (illegalAssignmentToTemplateVar_annotation_names_assignment
           (new Fixture.resolver1) Fixture.tcb1 Fixture.mapping1
           (mkParseSourceSpan 1040 1052) Fixture.writeOther Fixture.varItem
           eq_refl eq_refl).
Defined.

(* ===================================================================== *)
(** ** The wording of [requiresInlineTypeConstructors] *)
(* ===================================================================== *)

Lemma wordings_differ : pluralWording <> singularWording.
Proof. intros H. vm_compute in H. discriminate H. Qed.

(** C3, as the code has it.  [requiresInlineTypeConstructors] returns
    normally with one record appended.  The record's message is the
    plural wording when the list has more than one directive and the
    singular wording otherwise, that is for one directive and for none.
    The record carries one secondary annotation per directive, in the
    order of the list, each anchored at that directive's own declaration
    and reading [Requires an inline type constructor.] *)
Theorem requiresInlineTypeConstructors_wording_and_annotations :
  forall (this : Recorder) (templateId : TemplateId)
         (node : ClassDeclaration.t) (directives : list ClassDeclaration.t),
    let r := requiresInlineTypeConstructors templateId node directives this in
    outcome r = Normal tt
    /\ exists d,
         diagnostics (final r) = diagnostics this ++ [d]
         /\ (1 < List.length directives ->
             TemplateDiagnostic.messageText d = pluralWording)
         /\ (List.length directives <= 1 ->
             TemplateDiagnostic.messageText d = singularWording)
         /\ pluralWording <> singularWording
         /\ List.length (TemplateDiagnostic.relatedInformation d)
            = List.length directives
         /\ (forall i dir,
               nth_error directives i = Some dir ->
               nth_error (TemplateDiagnostic.relatedInformation d) i
               = Some {| relatedText :=
                           lit "Requires an inline type constructor.";
                         relatedLocation :=
                           AtNode (ClassDeclaration.name dir) |}).
Proof.
  intros this templateId node directives r. subst r.
  rewrite requiresInlineTypeConstructors_run. cbn [outcome final].
  split; [reflexivity |]. eexists. split; [reflexivity |].
  unfold TemplateDiagnostic.messageText, TemplateDiagnostic.relatedInformation.
  cbn [makeInlineDiagnostic makeDiagnostic TemplateDiagnostic.base
       Diagnostic.messageText Diagnostic.relatedInformation or_else].
  repeat split.
  - intros H. apply Nat.ltb_lt in H. rewrite H. reflexivity.
  - intros H. destruct (1 <? List.length directives) eqn:E; [| reflexivity].
    apply Nat.ltb_lt in E. lia.
  - exact wordings_differ.
  - apply length_map.
  - intros i dir H. rewrite nth_error_map, H. reflexivity.
Qed.

(** C3, as stated, fails on the empty list: with no directive the record
    has the singular wording, not the plural one. *)
Lemma requiresInlineTypeConstructors_empty_list_is_singular :
  let r :=
    requiresInlineTypeConstructors Fixture.tcb1 Fixture.classApp []
      (new Fixture.resolver1) in
  exists d,
    diagnostics (final r) = [d]
    /\ List.length (@nil ClassDeclaration.t) <> 1
    /\ TemplateDiagnostic.messageText d = singularWording
    /\ TemplateDiagnostic.messageText d <> pluralWording.
Proof.
  eexists. split; [reflexivity |]. split; [discriminate |].
  split; [reflexivity |].
  intros H. vm_compute in H. discriminate H.
Qed.

(* ===================================================================== *)
(** ** A call does not look at the records already there *)
(* ===================================================================== *)

Ltac case_resolver :=
  repeat match goal with
  | |- context [getSourceMapping ?r ?i] =>
      destruct (getSourceMapping r i); cbn
  | |- context [toParseSourceSpan ?r ?i ?s] =>
      destruct (toParseSourceSpan r i s); cbn
  end.

(** A call on any receiver completes as it does on a new recorder with the
    same resolver, performs the same resolver operations, and leaves
    behind the receiver's records followed by what it reports. *)
Lemma invoke_frame (c : ReportCall) (this : Recorder) :
  invoke c this
  = mkResult (outcome (invoke c (new (resolver this))))
      {| _diagnostics := _diagnostics this ++ reported (resolver this) c;
         resolver := resolver this |}
      (calls (invoke c (new (resolver this)))).
Proof.
  destruct this as [ds res].
  destruct c; unfold reported, diagnostics, invoke, new; run_method;
    cbn [resolver _diagnostics]; case_resolver;
    rewrite ?app_nil_r; reflexivity.
Qed.

(** A call reports one record when it returns normally and none when it
    throws. *)
Lemma reported_length (res : TemplateSourceResolver.t) (c : ReportCall) :
  List.length (reported res c)
  = if succeeded (outcome (invoke c (new res))) then 1 else 0.
Proof.
  destruct c; unfold reported, diagnostics, invoke, new; run_method;
    cbn [resolver _diagnostics]; case_resolver; reflexivity.
Qed.

(** Every record a call reports carries the call's template identifier. *)
Lemma reported_templateId (res : TemplateSourceResolver.t) (c : ReportCall) :
  Forall (fun d => TemplateDiagnostic.templateId d = templateIdOf c)
         (reported res c).
Proof.
  destruct c; unfold reported, diagnostics, invoke, new; run_method;
    cbn [resolver _diagnostics]; case_resolver;
    repeat constructor.
Qed.

Lemma invokeAll_frame (cs : list ReportCall) (this : Recorder) :
  invokeAll cs this
  = (map (fun c => outcome (invoke c (new (resolver this)))) cs,
     {| _diagnostics :=
          _diagnostics this ++ flat_map (reported (resolver this)) cs;
        resolver := resolver this |}).
Proof.
  revert this. induction cs as [| c rest IH]; intros this.
  - cbn. rewrite app_nil_r. destruct this; reflexivity.
  - cbn [invokeAll]. rewrite (invoke_frame c this). cbn [final outcome].
    rewrite IH. cbn [resolver _diagnostics map flat_map].
    rewrite <- app_assoc. reflexivity.
Qed.

Lemma flat_map_reported_length (res : TemplateSourceResolver.t)
    (cs : list ReportCall) :
  List.length (flat_map (reported res) cs)
  = List.length
      (filter succeeded (map (fun c => outcome (invoke c (new res))) cs)).
Proof.
  induction cs as [| c rest IH]; [reflexivity |].
  cbn [flat_map map filter]. rewrite length_app, reported_length, IH.
  destruct (succeeded (outcome (invoke c (new res)))); reflexivity.
Qed.

Lemma filter_all_length {A : Type} (p : A -> bool) (l : list A) :
  forallb p l = true -> List.length (filter p l) = List.length l.
Proof.
  induction l as [| x rest IH]; [reflexivity |].
  cbn. intros H. apply andb_true_iff in H. destruct H as [Hx Hrest].
  rewrite Hx. cbn. f_equal. auto.
Qed.

(* ===================================================================== *)
(** ** The diagnostics collection *)
(* ===================================================================== *)

(** C2. A new recorder has no diagnostics.  After any sequence of
    reporting calls on it, of any of the six methods, the diagnostics are
    the records of the calls in call order: one record for each call that
    returned normally and none for a call that threw.  So there are as
    many records as successful calls (all [N] of them when all [N] calls
    succeed), and the diagnostics after the first calls of the sequence
    are an unchanged prefix of the diagnostics after all of them. *)
Theorem diagnostics_append_only_in_call_order :
  forall (res : TemplateSourceResolver.t) (cs : list ReportCall),
    let run := invokeAll cs (new res) in
    diagnostics (new res) = []
    /\ fst run = map (fun c => outcome (invoke c (new res))) cs
    /\ diagnostics (snd run) = flat_map (reported res) cs
    /\ (forall c,
          List.length (reported res c)
          = if succeeded (outcome (invoke c (new res))) then 1 else 0)
    /\ List.length (diagnostics (snd run))
       = List.length (filter succeeded (fst run))
    /\ (forallb succeeded (fst run) = true ->
        List.length (diagnostics (snd run)) = List.length cs)
    /\ (forall before after,
          cs = before ++ after ->
          exists later,
            diagnostics (snd run)
            = diagnostics (snd (invokeAll before (new res))) ++ later
            /\ later = flat_map (reported res) after).
Proof.
  intros res cs run. subst run. rewrite invokeAll_frame.
  cbn [fst snd new resolver _diagnostics diagnostics app].
  split; [reflexivity |]. split; [reflexivity |]. split; [reflexivity |].
  split; [apply reported_length |].
  split; [apply flat_map_reported_length |].
  split.
  - intros Hall. rewrite flat_map_reported_length.
    rewrite (filter_all_length _ _ Hall). apply length_map.
  - intros before after ->. rewrite invokeAll_frame.
    cbn [snd new resolver _diagnostics app].
    exists (flat_map (reported res) after). split; [| reflexivity].
    apply flat_map_app.
Qed.

(** C8. Whatever the method, a record appended by a reporting call
    carries the template identifier passed to that call. *)
Theorem appended_record_has_call_templateId :
  forall (c : ReportCall) (this : Recorder) (d : TemplateDiagnostic.t),
    diagnostics (final (invoke c this)) = diagnostics this ++ [d] ->
    TemplateDiagnostic.templateId d = templateIdOf c.
Proof.
  intros c this d H. rewrite invoke_frame in H.
  unfold diagnostics in H. cbn [final _diagnostics] in H.
  apply app_inv_head in H.
  pose proof (reported_templateId (resolver this) c) as Hall.
  rewrite H in Hall. inversion Hall; assumption.
Qed.

Lemma appended_record_has_call_templateId_witness :
  diagnostics
    (final (invoke (CallMissingPipe Fixture.tcb1 Fixture.pipeCurrency)
              (new Fixture.resolver1)))
  = diagnostics (new Fixture.resolver1)
    ++ [makeTemplateDiagnostic Fixture.tcb1 Fixture.mapping1
          (mkParseSourceSpan 1012 1020) ts.DiagnosticCategory.Error
          (ngErrorCode ErrorCode.MISSING_PIPE)
          (lit "No pipe found with name 'currency'.") None]
  /\ TemplateDiagnostic.templateId
       (makeTemplateDiagnostic Fixture.tcb1 Fixture.mapping1
          (mkParseSourceSpan 1012 1020) ts.DiagnosticCategory.Error
          (ngErrorCode ErrorCode.MISSING_PIPE)
          (lit "No pipe found with name 'currency'.") None)
     = templateIdOf (CallMissingPipe Fixture.tcb1 Fixture.pipeCurrency).
Proof.
  split.
  - reflexivity.
  - apply (appended_record_has_call_templateId
             (CallMissingPipe Fixture.tcb1 Fixture.pipeCurrency)
             (new Fixture.resolver1)).
    reflexivity.
Defined.

(* ===================================================================== *)
(** ** Further properties: the records of [missingPipe] and of
       [illegalAssignmentToTemplateVar] *)
(* ===================================================================== *)



(** X2. When the template is known and the assignment's span translates,
    [illegalAssignmentToTemplateVar] returns normally and appends a
    record with message [Cannot use variable '<name>' as the left-hand
    side of an assignment expression. Template variables are read-only.],
    where [<name>] is the name the assignment writes to, anchored at the
    translated span of the assignment, with the code
    [WRITE_TO_READ_ONLY_VARIABLE] and the error category. *)
Theorem illegalAssignmentToTemplateVar_message_and_anchor :
  forall (this : Recorder) (templateId : TemplateId)
         (mapping : TemplateSourceMapping) (sourceSpan : ParseSourceSpan)
         (assignment : PropertyWrite.t) (target : TmplAstVariable.t),
    getSourceMapping (resolver this) templateId = Some mapping ->
    toParseSourceSpan (resolver this) templateId
      (PropertyWrite.sourceSpan assignment) = Some sourceSpan ->
    let r := illegalAssignmentToTemplateVar templateId assignment target this in
    outcome r = Normal tt
    /\ exists d,
         diagnostics (final r) = diagnostics this ++ [d]
         /\ TemplateDiagnostic.messageText d
            = lit "Cannot use variable '" ++ PropertyWrite.name assignment
              ++ lit "' as the left-hand side of an assignment expression. Template variables are read-only."
         /\ TemplateDiagnostic.anchor d = InTemplate mapping sourceSpan
         /\ TemplateDiagnostic.code d
            = ngErrorCode ErrorCode.WRITE_TO_READ_ONLY_VARIABLE
         /\ TemplateDiagnostic.category d = ts.DiagnosticCategory.Error.
Proof.
  intros this templateId mapping sourceSpan assignment target Hmap Hspan r.
  subst r.
  rewrite (illegalAssignmentToTemplateVar_run _ _ _ _ _ target Hmap Hspan).
  cbn [outcome final]. split; [reflexivity |].
  eexists. split; [reflexivity |]. repeat split; reflexivity.
Qed.

Lemma illegalAssignmentToTemplateVar_message_and_anchor_witness :
  let r :=
    illegalAssignmentToTemplateVar Fixture.tcb1 Fixture.writeOther
      Fixture.varItem (new Fixture.resolver1) in
  outcome r = Normal tt
  /\ exists d,
       diagnostics (final r) = diagnostics (new Fixture.resolver1) ++ [d]
       /\ TemplateDiagnostic.messageText d
          = lit "Cannot use variable '"
            ++ PropertyWrite.name Fixture.writeOther
            ++ lit "' as the left-hand side of an assignment expression. Template variables are read-only."
       /\ TemplateDiagnostic.anchor d
          = InTemplate Fixture.mapping1 (mkParseSourceSpan 1040 1052)
       /\ TemplateDiagnostic.code d
          = ngErrorCode ErrorCode.WRITE_TO_READ_ONLY_VARIABLE
       /\ TemplateDiagnostic.category d = ts.DiagnosticCategory.Error.
Proof.
  exact (illegalAssignmentToTemplateVar_message_and_anchor
           (new Fixture.resolver1) Fixture.tcb1 Fixture.mapping1
           (mkParseSourceSpan 1040 1052) Fixture.writeOther Fixture.varItem
           eq_refl eq_refl).
Defined.

(* ===================================================================== *)
(** ** Further properties: how the methods fail *)
(* ===================================================================== *)

(** X3. On a known template whose spans do not translate, [missingPipe]
    throws an [Error] whose message names the pipe,
    [Assertion failure: no SourceLocation found for usage of pipe
    '<name>'.], and [illegalAssignmentToTemplateVar] throws an [Error]
    with the fixed message [Assertion failure: no SourceLocation found
    for property binding.], which names neither the assignment nor the
    variable.  Both have asked the resolver for the mapping and then for
    the span, and leave the receiver as it was. *)
Theorem assertion_failure_messages :
  forall (this : Recorder) (templateId : TemplateId)
         (mapping : TemplateSourceMapping) (ast : BindingPipe.t)
         (assignment : PropertyWrite.t) (target : TmplAstVariable.t),
    getSourceMapping (resolver this) templateId = Some mapping ->
    toParseSourceSpan (resolver this) templateId (BindingPipe.nameSpan ast)
    = None ->
    toParseSourceSpan (resolver this) templateId
      (PropertyWrite.sourceSpan assignment) = None ->
    let pipeRun := missingPipe templateId ast this in
    let writeRun :=
      illegalAssignmentToTemplateVar templateId assignment target this in
    outcome pipeRun
    = Throw (Error
        (lit "Assertion failure: no SourceLocation found for usage of pipe '"
         ++ BindingPipe.name ast ++ lit "'."))
    /\ final pipeRun = this
    /\ calls pipeRun
       = [GetSourceMapping templateId (Some mapping);
          ToParseSourceSpan templateId (BindingPipe.nameSpan ast) None]
    /\ outcome writeRun
       = Throw (Error
           (lit "Assertion failure: no SourceLocation found for property binding."))
    /\ final writeRun = this
    /\ calls writeRun
       = [GetSourceMapping templateId (Some mapping);
          ToParseSourceSpan templateId (PropertyWrite.sourceSpan assignment)
            None].
Proof.
  intros this templateId mapping ast assignment target Hmap Hpipe Hwrite
    pipeRun writeRun.
  subst pipeRun writeRun.
  rewrite (missingPipe_absent _ _ _ _ Hmap Hpipe).
  rewrite (illegalAssignmentToTemplateVar_absent _ _ _ _ target Hmap Hwrite).
  cbn [outcome final calls]. repeat split; reflexivity.
Qed.

Lemma assertion_failure_messages_witness :
  let pipeRun :=
    missingPipe Fixture.tcb1 Fixture.pipeSynthetic (new Fixture.resolver1) in
  let writeRun :=
    illegalAssignmentToTemplateVar Fixture.tcb1 Fixture.writeSynthetic
      Fixture.varItem (new Fixture.resolver1) in
  outcome pipeRun
  = Throw (Error
      (lit "Assertion failure: no SourceLocation found for usage of pipe '"
       ++ BindingPipe.name Fixture.pipeSynthetic ++ lit "'."))
  /\ final pipeRun = new Fixture.resolver1
  /\ calls pipeRun
     = [GetSourceMapping Fixture.tcb1 (Some Fixture.mapping1);
        ToParseSourceSpan Fixture.tcb1
          (BindingPipe.nameSpan Fixture.pipeSynthetic) None]
  /\ outcome writeRun
     = Throw (Error
         (lit "Assertion failure: no SourceLocation found for property binding."))
  /\ final writeRun = new Fixture.resolver1
  /\ calls writeRun
     = [GetSourceMapping Fixture.tcb1 (Some Fixture.mapping1);
        ToParseSourceSpan Fixture.tcb1
          (PropertyWrite.sourceSpan Fixture.writeSynthetic) None].
Proof.
  exact (assertion_failure_messages (new Fixture.resolver1) Fixture.tcb1
           Fixture.mapping1 Fixture.pipeSynthetic Fixture.writeSynthetic
           Fixture.varItem eq_refl eq_refl eq_refl).
Defined.

(** X4. A reporting call that throws leaves the receiver exactly as it
    was, records and resolver, so every later call runs as if the failed
    call had not been made. *)
Theorem thrown_call_leaves_receiver_intact :
  forall (c : ReportCall) (this : Recorder),
    succeeded (outcome (invoke c this)) = false ->
    final (invoke c this) = this
    /\ forall c', invoke c' (final (invoke c this)) = invoke c' this.
Proof.
  intros c this Hthrow.
  assert (Hfinal : final (invoke c this) = this).
  { revert Hthrow. destruct this as [ds res].
    destruct c; unfold invoke; run_method; cbn [resolver _diagnostics];
      repeat match goal with
      | |- context [getSourceMapping ?r ?i] =>
          destruct (getSourceMapping r i); cbn
      | |- context [toParseSourceSpan ?r ?i ?s] =>
          destruct (toParseSourceSpan r i s); cbn
      end;
      intros H; try discriminate H; reflexivity. }
  split; [exact Hfinal |]. intros c'. rewrite Hfinal. reflexivity.
Qed.

Lemma thrown_call_leaves_receiver_intact_witness :
  final (invoke (CallMissingPipe Fixture.tcb1 Fixture.pipeSynthetic)
           (new Fixture.resolver1))
  = new Fixture.resolver1
  /\ forall c',
       invoke c'
         (final (invoke (CallMissingPipe Fixture.tcb1 Fixture.pipeSynthetic)
                   (new Fixture.resolver1)))
       = invoke c' (new Fixture.resolver1).
Proof.
  exact (thrown_call_leaves_receiver_intact
           (CallMissingPipe Fixture.tcb1 Fixture.pipeSynthetic)
           (new Fixture.resolver1) eq_refl).
Defined.

(** X5. When [getSourceMapping] fails for the template, each of the four
    methods that report on a template node fails with that failure before
    doing anything else: [toParseSourceSpan] is not called, no record is
    appended and the receiver is as it was. *)
Theorem unknown_template_fails_first :
  forall (this : Recorder) (templateId : TemplateId)
         (ref : TmplAstReference.t) (ast : BindingPipe.t)
         (assignment : PropertyWrite.t)
         (target variable firstDecl : TmplAstVariable.t),
    getSourceMapping (resolver this) templateId = None ->
    let failed :=
      mkResult (Throw (ContractViolation templateId)) this
        [GetSourceMapping templateId None] in
    missingReferenceTarget templateId ref this = failed
    /\ missingPipe templateId ast this = failed
    /\ illegalAssignmentToTemplateVar templateId assignment target this
       = failed
    /\ duplicateTemplateVar templateId variable firstDecl this = failed.
Proof.
  intros this templateId ref ast assignment target variable firstDecl Hmap
    failed.
  subst failed. repeat split.
  - apply missingReferenceTarget_unregistered, Hmap.
  - apply missingPipe_unregistered, Hmap.
  - apply illegalAssignmentToTemplateVar_unregistered, Hmap.
  - apply duplicateTemplateVar_unregistered, Hmap.
Qed.

Lemma unknown_template_fails_first_witness :
  let failed :=
    mkResult (A := unit) (Throw (ContractViolation Fixture.tcb9))
      (new Fixture.resolver1) [GetSourceMapping Fixture.tcb9 None] in
  missingReferenceTarget Fixture.tcb9 Fixture.refFoo (new Fixture.resolver1)
  = failed
  /\ missingPipe Fixture.tcb9 Fixture.pipeSynthetic (new Fixture.resolver1)
     = failed
  /\ illegalAssignmentToTemplateVar Fixture.tcb9 Fixture.writeItem
       Fixture.varItem (new Fixture.resolver1)
     = failed
  /\ duplicateTemplateVar Fixture.tcb9 Fixture.varItemAgain Fixture.varItem
       (new Fixture.resolver1)
     = failed.
Proof.
  exact (unknown_template_fails_first (new Fixture.resolver1) Fixture.tcb9
           Fixture.refFoo Fixture.pipeSynthetic Fixture.writeItem
           Fixture.varItem Fixture.varItemAgain Fixture.varItem eq_refl).
Defined.

(** X6. Whatever the resolver answers, the internal fatal error can only
    come from [missingPipe] and [illegalAssignmentToTemplateVar]: a call
    that raises it is a call of one of these two methods. *)
Theorem only_translating_reports_assert :
  forall (c : ReportCall) (this : Recorder),
    isInternalFatalError (outcome (invoke c this)) = true ->
    exists templateId,
      (exists ast, c = CallMissingPipe templateId ast)
      \/ (exists assignment target,
            c = CallIllegalAssignmentToTemplateVar templateId assignment
                  target).
Proof.
  intros c this. destruct this as [ds res].
  destruct c; unfold invoke; run_method; cbn [resolver _diagnostics];
    repeat match goal with
    | |- context [getSourceMapping ?r ?i] =>
        destruct (getSourceMapping r i); cbn
    | |- context [toParseSourceSpan ?r ?i ?s] =>
        destruct (toParseSourceSpan r i s); cbn
    end;
    try discriminate; intros _; eexists; eauto.
Qed.

Lemma only_translating_reports_assert_witness :
  exists templateId,
    (exists ast,
       CallMissingPipe Fixture.tcb1 Fixture.pipeSynthetic
       = CallMissingPipe templateId ast)
    \/ (exists assignment target,
          CallMissingPipe Fixture.tcb1 Fixture.pipeSynthetic
          = CallIllegalAssignmentToTemplateVar templateId assignment target).
Proof.
  exact (only_translating_reports_assert
           (CallMissingPipe Fixture.tcb1 Fixture.pipeSynthetic)
           (new Fixture.resolver1) eq_refl).
Defined.

(* ===================================================================== *)
(** ** Further properties: what a call asks the resolver *)
(* ===================================================================== *)

(** X7. A reporting call asks the resolver about its own template only,
    and at most twice.  When it asks at all, the first question is
    [getSourceMapping] and no later one is; the two methods that take a
    class declaration do not ask at all. *)
Theorem resolver_operations_of_a_call :
  forall (c : ReportCall) (this : Recorder),
    let ops := calls (invoke c this) in
    Forall (fun op => askedAbout op = templateIdOf c) ops
    /\ List.length ops <= 2
    /\ match ops with
       | [] => isInlineReport c = true
       | first :: later =>
           isInlineReport c = false
           /\ isGetSourceMapping first = true
           /\ forallb (fun op => negb (isGetSourceMapping op)) later = true
       end.
Proof.
  intros c this ops. subst ops. destruct this as [ds res].
  destruct c; unfold invoke; run_method; cbn [resolver _diagnostics];
    repeat match goal with
    | |- context [getSourceMapping ?r ?i] =>
        destruct (getSourceMapping r i); cbn
    | |- context [toParseSourceSpan ?r ?i ?s] =>
        destruct (toParseSourceSpan r i s); cbn
    end;
    repeat split; repeat constructor.
Qed.

(* ===================================================================== *)
(** ** Further properties: the reports on a class declaration *)
(* ===================================================================== *)

(** X8. The record of [requiresInlineTypeConstructors] is anchored at the
    component's own class name, whatever the directives are, and has the
    code [INLINE_TYPE_CTOR_REQUIRED]; the call asks the resolver nothing.
    The records of both [requiresInlineTcb] and
    [requiresInlineTypeConstructors] name as component file the source
    file of the component's class name, also when the directives are
    declared in other files. *)
Theorem inline_reports_point_at_the_component :
  forall (this : Recorder) (templateId : TemplateId)
         (node : ClassDeclaration.t) (directives : list ClassDeclaration.t),
    let tcbRun := requiresInlineTcb templateId node this in
    let ctorRun :=
      requiresInlineTypeConstructors templateId node directives this in
    calls ctorRun = []
    /\ (exists d,
          diagnostics (final tcbRun) = diagnostics this ++ [d]
          /\ TemplateDiagnostic.componentFile d
             = ts.getSourceFile (ClassDeclaration.name node)
          /\ TemplateDiagnostic.code d
             = ngErrorCode ErrorCode.INLINE_TCB_REQUIRED
          /\ TemplateDiagnostic.relatedInformation d = [])
    /\ (exists d,
          diagnostics (final ctorRun) = diagnostics this ++ [d]
          /\ TemplateDiagnostic.anchor d
             = AtNode (ClassDeclaration.name node)
          /\ TemplateDiagnostic.componentFile d
             = ts.getSourceFile (ClassDeclaration.name node)
          /\ TemplateDiagnostic.code d
             = ngErrorCode ErrorCode.INLINE_TYPE_CTOR_REQUIRED).
Proof.
  intros this templateId node directives tcbRun ctorRun.
  subst tcbRun ctorRun.
  rewrite requiresInlineTcb_run, requiresInlineTypeConstructors_run.
  cbn [calls final]. split; [reflexivity |].
  split; eexists; (split; [reflexivity |]); repeat split; reflexivity.
Qed.

(* ===================================================================== *)
(** ** Further properties: codes and categories *)
(* ===================================================================== *)





(* ===================================================================== *)
(** ** Further properties: the recorder keeps no other state *)
(* ===================================================================== *)

(** X10. From any state of the recorder, a reporting call keeps the
    resolver, keeps the records already there in place and adds one
    record behind them when it returns normally and none when it throws.
    How it completes, what it asks the resolver and what it adds do not
    depend on the records already there. *)
Theorem call_is_independent_of_history :
  forall (c : ReportCall) (this : Recorder),
    let r := invoke c this in
    let alone := invoke c (new (resolver this)) in
    resolver (final r) = resolver this
    /\ outcome r = outcome alone
    /\ calls r = calls alone
    /\ diagnostics (final r) = diagnostics this ++ diagnostics (final alone)
    /\ List.length (diagnostics (final r))
       = List.length (diagnostics this)
         + (if succeeded (outcome r) then 1 else 0).
Proof.
  intros c this r alone. subst r alone.
  rewrite (invoke_frame c this). cbn [final outcome calls resolver].
  unfold diagnostics at 1 3. cbn [_diagnostics].
  repeat split.
  unfold diagnostics. cbn [_diagnostics].
  rewrite length_app. f_equal. apply reported_length.
Qed.

(** X11. The recorder does not merge equal reports: making the same
    successful call twice in a row leaves the same record twice. *)
Theorem repeated_call_is_recorded_twice :
  forall (c : ReportCall) (this : Recorder),
    succeeded (outcome (invoke c this)) = true ->
    exists d,
      diagnostics (final (invoke c this)) = diagnostics this ++ [d]
      /\ diagnostics (final (invoke c (final (invoke c this))))
         = diagnostics this ++ [d; d].
Proof.
  intros c this Hok.
  rewrite (invoke_frame c (final (invoke c this))).
  rewrite (invoke_frame c this) in *. cbn [final outcome resolver] in *.
  unfold diagnostics. cbn [final _diagnostics].
  pose proof (reported_length (resolver this) c) as Hlen.
  rewrite Hok in Hlen.
  destruct (reported (resolver this) c) as [| d [| d' rest]];
    try discriminate Hlen.
  exists d. split; [reflexivity |]. rewrite <- app_assoc. reflexivity.
Qed.

Lemma repeated_call_is_recorded_twice_witness :
  exists d,
    diagnostics
      (final (invoke (CallDuplicateTemplateVar Fixture.tcb1
                        Fixture.varItemAgain Fixture.varItem)
                (new Fixture.resolver1)))
    = diagnostics (new Fixture.resolver1) ++ [d]
    /\ diagnostics
         (final
            (invoke (CallDuplicateTemplateVar Fixture.tcb1
                       Fixture.varItemAgain Fixture.varItem)
               (final
                  (invoke (CallDuplicateTemplateVar Fixture.tcb1
                             Fixture.varItemAgain Fixture.varItem)
                     (new Fixture.resolver1)))))
       = diagnostics (new Fixture.resolver1) ++ [d; d].
Proof.
  exact (repeated_call_is_recorded_twice
           (CallDuplicateTemplateVar Fixture.tcb1 Fixture.varItemAgain
              Fixture.varItem)
           (new Fixture.resolver1) eq_refl).
Defined.

(* ===================================================================== *)
(** ** Further properties: what the reports do not look at *)
(* ===================================================================== *)

(** X12. [missingReferenceTarget] looks at the reference's value only
    between its outer white space: if the value is white space, then a
    string [v] that neither starts nor ends with white space, then white
    space, the message is [No directive found with exportAs '<v>'.]
    whatever the white space around [v] is. *)
Theorem missingReferenceTarget_ignores_outer_white_space :
  forall (this : Recorder) (templateId : TemplateId)
         (mapping : TemplateSourceMapping) (ref : TmplAstReference.t)
         (leading v trailing : js_string),
    getSourceMapping (resolver this) templateId = Some mapping ->
    TmplAstReference.value ref = leading ++ v ++ trailing ->
    allWhiteSpace leading = true ->
    allWhiteSpace trailing = true ->
    noOuterWhiteSpace v = true ->
    let r := missingReferenceTarget templateId ref this in
    exists d,
      diagnostics (final r) = diagnostics this ++ [d]
      /\ TemplateDiagnostic.messageText d
         = lit "No directive found with exportAs '" ++ v ++ lit "'.".
Proof.
  intros this templateId mapping ref leading v trailing Hmap Hval Hl Ht Hv r.
  subst r. rewrite (missingReferenceTarget_run _ _ _ ref Hmap).
  eexists. split; [reflexivity |].
  unfold TemplateDiagnostic.messageText.
  cbn [makeTemplateDiagnostic TemplateDiagnostic.base Diagnostic.messageText].
  rewrite Hval, (trim_unique _ _ _ Hl Ht Hv). reflexivity.
Qed.

Lemma missingReferenceTarget_ignores_outer_white_space_witness :
  exists d,
    diagnostics
      (final (missingReferenceTarget Fixture.tcb1 Fixture.refFoo
                (new Fixture.resolver1)))
    = diagnostics (new Fixture.resolver1) ++ [d]
    /\ TemplateDiagnostic.messageText d
       = lit "No directive found with exportAs '" ++ lit "foo" ++ lit "'.".
Proof.
  exact (missingReferenceTarget_ignores_outer_white_space
           (new Fixture.resolver1) Fixture.tcb1 Fixture.mapping1
           Fixture.refFoo (lit "  ") (lit "foo") (lit "  ")
           eq_refl eq_refl eq_refl eq_refl eq_refl).
Defined.

(** X13. [missingReferenceTarget] has no guard for a blank value: when
    the reference's value is empty or all white space, the call still
    returns normally and appends a record, whose message is
    [No directive found with exportAs ''.] *)
Theorem missingReferenceTarget_blank_value :
  forall (this : Recorder) (templateId : TemplateId)
         (mapping : TemplateSourceMapping) (ref : TmplAstReference.t),
    getSourceMapping (resolver this) templateId = Some mapping ->
    allWhiteSpace (TmplAstReference.value ref) = true ->
    let r := missingReferenceTarget templateId ref this in
    outcome r = Normal tt
    /\ exists d,
         diagnostics (final r) = diagnostics this ++ [d]
         /\ TemplateDiagnostic.messageText d
            = lit "No directive found with exportAs ''.".
Proof.
  intros this templateId mapping ref Hmap Hblank r. subst r.
  rewrite (missingReferenceTarget_run _ _ _ ref Hmap). cbn [outcome final].
  split; [reflexivity |]. eexists. split; [reflexivity |].
  unfold TemplateDiagnostic.messageText.
  cbn [makeTemplateDiagnostic TemplateDiagnostic.base Diagnostic.messageText].
  unfold trim. rewrite (trimStart_all _ Hblank). reflexivity.
Qed.

Lemma missingReferenceTarget_blank_value_witness :
  let r :=
    missingReferenceTarget Fixture.tcb1 MoreFixture.refBlank
      (new Fixture.resolver1) in
  outcome r = Normal tt
  /\ exists d,
       diagnostics (final r) = diagnostics (new Fixture.resolver1) ++ [d]
       /\ TemplateDiagnostic.messageText d
          = lit "No directive found with exportAs ''.".
Proof.
  exact (missingReferenceTarget_blank_value (new Fixture.resolver1)
           Fixture.tcb1 Fixture.mapping1 MoreFixture.refBlank
           eq_refl eq_refl).
Defined.

(** X14. [duplicateTemplateVar] reads only the names and the declaration
    spans of its two variables.  Variables that agree on these give the
    same run, whatever their values and value spans are: the narrower
    value span is never used for this report. *)
Theorem duplicateTemplateVar_ignores_value_spans :
  forall (this : Recorder) (templateId : TemplateId)
         (variable variable' firstDecl firstDecl' : TmplAstVariable.t),
    TmplAstVariable.name variable = TmplAstVariable.name variable' ->
    TmplAstVariable.sourceSpan variable
    = TmplAstVariable.sourceSpan variable' ->
    TmplAstVariable.name firstDecl = TmplAstVariable.name firstDecl' ->
    TmplAstVariable.sourceSpan firstDecl
    = TmplAstVariable.sourceSpan firstDecl' ->
    duplicateTemplateVar templateId variable firstDecl this
    = duplicateTemplateVar templateId variable' firstDecl' this.
Proof.
  intros this templateId variable variable' firstDecl firstDecl'
    Hn Hs Hfn Hfs.
  unfold duplicateTemplateVar. rewrite Hn, Hs, Hfn, Hfs. reflexivity.
Qed.

Lemma duplicateTemplateVar_ignores_value_spans_witness :
  duplicateTemplateVar Fixture.tcb1 Fixture.varItem Fixture.varItem
    (new Fixture.resolver1)
  = duplicateTemplateVar Fixture.tcb1 MoreFixture.varItemValued
      MoreFixture.varItemValued (new Fixture.resolver1).
Proof.
  exact (duplicateTemplateVar_ignores_value_spans (new Fixture.resolver1)
           Fixture.tcb1 Fixture.varItem MoreFixture.varItemValued
           Fixture.varItem MoreFixture.varItemValued
           eq_refl eq_refl eq_refl eq_refl).
Defined.

(** X15. [illegalAssignmentToTemplateVar] reads of its target variable
    only the span [target.valueSpan || target.sourceSpan]: two targets
    with the same such span give the same run, whatever their names,
    their values and the way the span is split between the two fields. *)
Theorem illegalAssignmentToTemplateVar_reads_target_span_only :
  forall (this : Recorder) (templateId : TemplateId)
         (assignment : PropertyWrite.t) (target target' : TmplAstVariable.t),
    or_else (TmplAstVariable.valueSpan target)
            (TmplAstVariable.sourceSpan target)
    = or_else (TmplAstVariable.valueSpan target')
              (TmplAstVariable.sourceSpan target') ->
    illegalAssignmentToTemplateVar templateId assignment target this
    = illegalAssignmentToTemplateVar templateId assignment target' this.
Proof.
  intros this templateId assignment target target' Hspan.
  unfold illegalAssignmentToTemplateVar. rewrite Hspan. reflexivity.
Qed.

Lemma illegalAssignmentToTemplateVar_reads_target_span_only_witness :
  illegalAssignmentToTemplateVar Fixture.tcb1 Fixture.writeItem
    MoreFixture.varItemValued (new Fixture.resolver1)
  = illegalAssignmentToTemplateVar Fixture.tcb1 Fixture.writeItem
      MoreFixture.varOtherAtValue (new Fixture.resolver1).
Proof.
  exact (illegalAssignmentToTemplateVar_reads_target_span_only
           (new Fixture.resolver1) Fixture.tcb1 Fixture.writeItem
           MoreFixture.varItemValued MoreFixture.varOtherAtValue eq_refl).
Defined.
